(** * Location request service (app.py): consent workflow and result codec

    A shallow embedding of the Flask handlers of [app.py] and of the XML
    codec [generate_xml_response], followed by the properties of the
    consent state machine and of the persisted documents.

    Conventions.
    - A Python [str] is a Rocq [string]; non-ASCII text is its UTF-8 bytes.
    - A parsed JSON body is a [json] value; Python's [None] is [JNull].
    - The process-wide dictionary [REQUEST_DB] is a [gmap string entry]; the
      result directory is a [gmap] from paths to file-system nodes.
    - An unhandled Python exception is [Raise]; Flask answers it with a 500
      and whatever the handler had mutated before stays mutated.
    - What the environment decides (the uuid drawn, the outcome of the SMS
      delivery, the outcome of the file write) is an explicit argument. *)

From Stdlib Require Import String Ascii ZArith List Bool Lia.
From Stdlib Require Import DecimalString.
From stdpp Require Import base option gmap strings list.

Set Warnings "-register-all".

Open Scope string_scope.
Open Scope Z_scope.

#[global] Arguments String.append !_ _ / : simpl nomatch.

(** ** Exceptions *)

Inductive exn :=
| AttributeError (what : string)
| TypeError (what : string).

Inductive result (A : Type) :=
| Ok (a : A)
| Raise (e : exn).
Arguments Ok {A} a.
Arguments Raise {A} e.

Definition bind {A B} (r : result A) (k : A -> result B) : result B :=
  match r with
  | Ok a => k a
  | Raise e => Raise e
  end.

Notation "x <- r ;; k" := (bind r (fun x => k))
  (at level 100, r at next level, right associativity).

Definition is_ok {A} (r : result A) : bool :=
  match r with Ok _ => true | Raise _ => false end.

(** ** Python values that come out of [request.json] *)

(** What the interpreter supplies for numbers and for [repr] of a string:
    truthiness of a number ([bool(x)]), its [str] (for a float, the shortest
    decimal that reads back), and the quoted form of a string. *)
Class PyBuiltins (number : Type) := {
  number_bool : number -> bool;
  number_str : number -> string;
  str_repr : string -> string
}.

Inductive json {number : Type} :=
| JNull
| JBool (b : bool)
| JNum (n : number)
| JStr (s : string)
| JArr (items : list json)
| JObj (fields : list (string * json)).
Arguments json : clear implicits.

Section Python.
Context {number : Type} `{PyBuiltins number}.

Local Abbreviation json := (json number).

(** [bool(v)], as used by [if v:] and [not v]. *)
Definition py_truthy (v : json) : bool :=
  match v with
  | JNull => false
  | JBool b => b
  | JNum n => number_bool n
  | JStr s => negb (String.eqb s "")
  | JArr items => match items with [] => false | _ => true end
  | JObj fields => match fields with [] => false | _ => true end
  end.

Definition join (sep : string) (l : list string) : string :=
  String.concat sep l.

Fixpoint py_repr (v : json) : string :=
  match v with
  | JNull => "None"
  | JBool true => "True"
  | JBool false => "False"
  | JNum n => number_str n
  | JStr s => str_repr s
  | JArr items => "[" +:+ join ", " (map py_repr items) +:+ "]"
  | JObj fields =>
      "{" +:+ join ", "
        (map (fun kv => str_repr (fst kv) +:+ ": " +:+ py_repr (snd kv)) fields)
      +:+ "}"
  end.

(** [str(v)]: a string is itself, everything else is its [repr]. *)
Definition py_str (v : json) : string :=
  match v with
  | JStr s => s
  | _ => py_repr v
  end.

Fixpoint assoc (k : string) (fields : list (string * json)) : option json :=
  match fields with
  | [] => None
  | (k', v) :: rest => if String.eqb k k' then Some v else assoc k rest
  end.

(** [d.get(k)]: only a dict has [get]; a missing key gives [None]. *)
Definition py_get (d : json) (k : string) : result json :=
  match d with
  | JObj fields => Ok (default JNull (assoc k fields))
  | _ => Raise (AttributeError "get")
  end.

(** ** xml.etree.ElementTree, as far as the codec uses it *)

(** An element: its tag, its [text] attribute (any object can be assigned,
    [None] when unset) and its children in document order. *)
Inductive Element := mkElement {
  tag : string;
  text : json;
  children : list Element
}.

(** [ET.Element(tag)] *)
Definition ET_Element (t : string) : Element := mkElement t JNull [].

(** [ET.SubElement(parent, tag).text = txt], seen from the parent. *)
Definition append (parent child : Element) : Element :=
  mkElement (tag parent) (text parent) (children parent ++ [child]).

Definition SubElement (parent : Element) (t : string) (txt : json) : Element :=
  append parent (mkElement t txt []).

(** [text.replace(c, by)] for a one-character pattern. *)
Fixpoint replace (c : ascii) (by_ : string) (s : string) : string :=
  match s with
  | EmptyString => EmptyString
  | String a rest =>
      if Ascii.eqb a c then by_ +:+ replace c by_ rest
      else String a (replace c by_ rest)
  end.

(** [_escape_cdata]: the three replacements, in the library's order. *)
Definition escape (s : string) : string :=
  replace ">" "&gt;" (replace "<" "&lt;" (replace "&" "&amp;" s)).

(** Serialising a text that is not a [str] raises [TypeError]. *)
Definition _escape_cdata (txt : json) : result string :=
  match txt with
  | JStr s => Ok (escape s)
  | _ => Raise (TypeError "cannot serialize")
  end.

(** [for e in elem: write(e)], the pieces written one after the other. *)
Fixpoint for_each {A} (write : A -> result string) (l : list A) : result string :=
  match l with
  | [] => Ok ""
  | e :: rest =>
      s <- write e ;;
      r <- for_each write rest ;;
      Ok (s +:+ r)
  end.

(** [_serialize_xml] with [short_empty_elements=True], no attributes, no
    tail text. *)
Fixpoint _serialize_xml (elem : Element) : result string :=
  if py_truthy (text elem) || negb (Nat.eqb (length (children elem)) 0) then
    t <- (if py_truthy (text elem) then _escape_cdata (text elem) else Ok "") ;;
    cs <- for_each _serialize_xml (children elem) ;;
    Ok ("<" +:+ tag elem +:+ ">" +:+ t +:+ cs +:+ "</" +:+ tag elem +:+ ">")
  else
    Ok ("<" +:+ tag elem +:+ " />").

(** [ET.tostring(root, encoding='unicode')] *)
Definition tostring (root : Element) : result string := _serialize_xml root.

(** ** Helper of app.py *)

Definition generate_xml_tree (request_id status : string)
    (location error_msg : json) : result Element :=
  let root := ET_Element "LocationRequest" in
  let root := SubElement root "RequestID" (JStr request_id) in
  let root := SubElement root "Status" (JStr status) in
  if String.eqb status "completed" && py_truthy location then
    lat <- py_get location "lat" ;;
    lon <- py_get location "lon" ;;
    let coords_el := ET_Element "Coordinates" in
    let coords_el := SubElement coords_el "Latitude" (JStr (py_str lat)) in
    let coords_el := SubElement coords_el "Longitude" (JStr (py_str lon)) in
    Ok (append root coords_el)
  else if String.eqb status "denied" && py_truthy error_msg then
    Ok (SubElement root "Message" error_msg)
  else if String.eqb status "pending" then
    Ok (SubElement root "Message"
          (JStr "Location has not been provided by the user yet."))
  else
    Ok root.

Definition generate_xml_response (request_id status : string)
    (location error_msg : json) : result string :=
  root <- generate_xml_tree request_id status location error_msg ;;
  tostring root.

(** ** Module globals and the result directory *)

Definition RESULTS_DIR : string := "/data/location_results".

(** A value of [REQUEST_DB]: the dict [{"status": ...}]. *)
Record entry := mkEntry { status : string }.

(** What sits at a path: a text file, or something [os.path.exists] sees
    but [open(...).read()] fails on (a directory, no permission, bytes that
    are not UTF-8), with the text of the exception. *)
Inductive fs_node :=
| File (content : string)
| Unreadable (why : string).

Record state := mkState {
  twilio_client : bool;            (* [false] is [twilio_client = None] *)
  TWILIO_PHONE_NUMBER : string;
  REQUEST_DB : gmap string entry;
  disk : gmap string fs_node
}.

Definition set_REQUEST_DB (db : gmap string entry) (st : state) : state :=
  mkState (twilio_client st) (TWILIO_PHONE_NUMBER st) db (disk st).

Definition set_disk (d : gmap string fs_node) (st : state) : state :=
  mkState (twilio_client st) (TWILIO_PHONE_NUMBER st) (REQUEST_DB st) d.

(** [REQUEST_DB[request_id] = {"status": s}]; on an existing key this is
    also what [REQUEST_DB[request_id]['status'] = s] does, status being the
    only key of an entry. *)
Definition set_status (request_id s : string) (st : state) : state :=
  set_REQUEST_DB (<[request_id := mkEntry s]> (REQUEST_DB st)) st.

(** ** Responses *)

Inductive body :=
| Json (j : json)                  (* [jsonify(...)] *)
| Html (s : string)                (* a plain string returned by the view *)
| ConsentPage (request_id : string) (* [render_template_string(html_content, ...)] *)
| Xml (s : string).                (* [Response(..., mimetype='application/xml')] *)

Definition response : Type := body * Z.

(** ** Small pieces of the standard library *)

Definition startswith_slash (s : string) : bool :=
  match s with
  | String "/" _ => true
  | _ => false
  end.

Fixpoint endswith_slash (s : string) : bool :=
  match s with
  | EmptyString => false
  | String a EmptyString => Ascii.eqb a "/"
  | String _ rest => endswith_slash rest
  end.

(** [posixpath.join(a, b)] *)
Definition os_path_join (a b : string) : string :=
  if startswith_slash b then b
  else if String.eqb a "" || endswith_slash a then a +:+ b
  else a +:+ "/" +:+ b.

(** [s.rstrip(c)] for a one-character set. *)
Fixpoint rstrip (c : ascii) (s : string) : string :=
  match s with
  | EmptyString => EmptyString
  | String a rest =>
      match rstrip c rest with
      | EmptyString => if Ascii.eqb a c then EmptyString else String a EmptyString
      | r => String a r
      end
  end.

Definition newline : string := String (ascii_of_nat 10) EmptyString.

Definition result_path (request_id : string) : string :=
  os_path_join RESULTS_DIR (request_id +:+ ".xml").

(** ** POST /request-location *)

(** Outcome of [twilio_client.messages.create]: the message with its SID, or
    an exception with its text. *)
Inductive delivery :=
| Delivered (sid : string)
| Failed (e : string).

Definition consent_url_of (url_root request_id : string) : string :=
  let base_url := rstrip "/" url_root in
  base_url +:+ "/consent/" +:+ request_id.

Definition message_body_of (consent_url : string) : string :=
  "Please share your location by clicking the link. "
  +:+ "An internet connection (Wi-Fi or mobile data) is required."
  +:+ newline +:+ newline
  +:+ "Click here: " +:+ consent_url.

Definition request_location (st : state) (data : json) (url_root : string)
    (uuid4 : string) (messages_create : string -> string -> json -> delivery)
    : result response * state :=
  if negb (twilio_client st) then
    (Ok (Json (JObj [("error",
           JStr "Twilio client not initialized. Check credentials.")]), 500), st)
  else
    match py_get data "phone_number" with
    | Raise e => (Raise e, st)
    | Ok phone_number =>
        if negb (py_truthy phone_number) then
          (Ok (Json (JObj [("error", JStr "'phone_number' is required")]), 400), st)
        else
          let request_id := uuid4 in
          let st := set_status request_id "pending" st in
          let consent_url := consent_url_of url_root request_id in
          let message_body := message_body_of consent_url in
          match messages_create message_body (TWILIO_PHONE_NUMBER st) phone_number with
          | Delivered sid =>
              (Ok (Json (JObj
                 [("status", JStr "pending");
                  ("message", JStr ("Location request SMS sent to "
                                    +:+ py_str phone_number +:+ "."));
                  ("request_id", JStr request_id)]), 202), st)
          | Failed e =>
              let st :=
                match REQUEST_DB st !! request_id with
                | Some _ => set_REQUEST_DB (delete request_id (REQUEST_DB st)) st
                | None => st
                end in
              (Ok (Json (JObj [("error", JStr ("Failed to send SMS: " +:+ e))]), 500), st)
          end
    end.

(** ** GET /consent/<request_id> *)

Definition get_consent (st : state) (request_id : string)
    : result response * state :=
  match REQUEST_DB st !! request_id with
  | None => (Ok (Html "<h1>Invalid or expired request.</h1>", 404), st)
  | Some e =>
      if negb (String.eqb (status e) "pending") then
        (Ok (Html "<h1>This location request has already been completed.</h1>", 200), st)
      else
        (Ok (ConsentPage request_id, 200), st)
  end.

(** ** POST /submit-location *)

(** Outcome of the [try] block that writes the file: written; an exception
    before the file was opened ([os.makedirs] or [open]); or an exception
    after [open] had truncated it, with [n] characters on disk. Either
    failure is printed and swallowed. *)
Inductive write_outcome :=
| Written
| FailedBeforeOpen
| FailedAfterOpen (n : nat).

Definition save (filepath xml_data : string) (w : write_outcome)
    (d : gmap string fs_node) : gmap string fs_node :=
  match w with
  | Written => <[filepath := File xml_data]> d
  | FailedBeforeOpen => d
  | FailedAfterOpen n => <[filepath := File (substring 0 n xml_data)]> d
  end.

Definition invalid_token : response :=
  (Json (JObj [("error", JStr "Invalid token")]), 400).

Definition already_processed : response :=
  (Json (JObj [("message", JStr "Request already processed")]), 200).

Definition received : response :=
  (Json (JObj [("status", JStr "received")]), 200).

(** The part of [submit_location] after both guards, for a key of
    [REQUEST_DB] whose status is pending. *)
Definition finalize (st : state) (request_id : string) (location error : json)
    (w : write_outcome) : result response * state :=
  let status := if py_truthy location then "completed" else "denied" in
  match (if py_truthy location
         then generate_xml_response request_id status location JNull
         else generate_xml_response request_id status JNull error) with
  | Raise e => (Raise e, st)
  | Ok xml_data =>
      let st := set_status request_id status st in
      let filepath := result_path request_id in
      let st := set_disk (save filepath xml_data w (disk st)) st in
      (Ok received, st)
  end.

Definition submit_location (st : state) (data : json) (w : write_outcome)
    : result response * state :=
  match (request_id <- py_get data "token" ;;
         location <- py_get data "location" ;;
         error <- py_get data "error" ;;
         Ok (request_id, location, error)) with
  | Raise e => (Raise e, st)
  | Ok (request_id, location, error) =>
      if negb (py_truthy request_id) then (Ok invalid_token, st)
      else
        (* [request_id not in REQUEST_DB]: the key is hashed first; the keys
           are all strings, so no other hashable value is found *)
        match request_id with
        | JArr _ | JObj _ => (Raise (TypeError "unhashable type"), st)
        | JStr token =>
            match REQUEST_DB st !! token with
            | None => (Ok invalid_token, st)
            | Some e =>
                if negb (String.eqb (status e) "pending") then
                  (Ok already_processed, st)
                else finalize st token location error w
            end
        | _ => (Ok invalid_token, st)
        end
  end.

(** ** GET /get-location/<request_id> *)

(** [request_id in REQUEST_DB and REQUEST_DB[request_id]['status'] == 'pending'] *)
Definition is_pending (st : state) (request_id : string) : bool :=
  match REQUEST_DB st !! request_id with
  | Some e => String.eqb (status e) "pending"
  | None => false
  end.

Definition get_location_xml (st : state) (request_id : string)
    : result response * state :=
  let filepath := result_path request_id in
  match disk st !! filepath with
  | Some (File content) => (Ok (Xml content, 200), st)
  | Some (Unreadable why) =>
      (Ok (Html ("Error reading result file: " +:+ why), 500), st)
  | None =>
      if is_pending st request_id then
        match generate_xml_response request_id "pending" JNull JNull with
        | Ok doc => (Ok (Xml doc, 200), st)
        | Raise e => (Raise e, st)
        end
      else
        match generate_xml_response request_id "error" JNull
                (JStr "Request ID not found.") with
        | Ok doc => (Ok (Xml doc, 404), st)
        | Raise e => (Raise e, st)
        end
  end.

(** ** The service as a transition system *)

Definition index : response :=
  (Html "Location Request Service is running. API is live.", 200).

(** One HTTP request together with what the environment decides while it is
    served. *)
Inductive request :=
| Index
| RequestLocation (data : json) (url_root : string) (uuid4 : string)
    (messages_create : string -> string -> json -> delivery)
| GetConsent (request_id : string)
| SubmitLocation (data : json) (w : write_outcome)
| GetLocationXml (request_id : string).

Definition handle (st : state) (r : request) : result response * state :=
  match r with
  | Index => (Ok index, st)
  | RequestLocation data url_root uuid4 messages_create =>
      request_location st data url_root uuid4 messages_create
  | GetConsent request_id => get_consent st request_id
  | SubmitLocation data w => submit_location st data w
  | GetLocationXml request_id => get_location_xml st request_id
  end.

(** [uuid.uuid4()] draws an identifier that is not a key of [REQUEST_DB]. *)
Definition fresh_uuid (st : state) (r : request) : bool :=
  match r with
  | RequestLocation _ _ uuid4 _ => bool_decide (REQUEST_DB st !! uuid4 = None)
  | _ => true
  end.

(** Serving a sequence of requests one after the other; [None] when a drawn
    uuid collides with a key in use. *)
Fixpoint run (st : state) (rs : list request) : option state :=
  match rs with
  | [] => Some st
  | r :: rest =>
      if fresh_uuid st r then run (snd (handle st r)) rest else None
  end.

(** The submissions of the interface: [location] is an object or null,
    [error] is a string or null. *)
Definition well_typed_submission (location error : json) : bool :=
  match location with
  | JNull | JObj _ => true
  | _ => false
  end &&
  match error with
  | JNull | JStr _ => true
  | _ => false
  end.

End Python.

(** A process that has just started, on an empty result directory. *)
Definition initial (client : bool) (from_ : string) : state :=
  mkState client from_ ∅ ∅.

(** ** Integers as a concrete interpreter instance

    JSON integers, with Python's [str(int)]; the quoted form of a string is
    given for text without quotes, backslashes or control characters. *)

Definition str_of_Z (z : Z) : string := NilZero.string_of_int (Z.to_int z).

#[export] Instance int_builtins : PyBuiltins Z := {
  number_bool z := negb (Z.eqb z 0);
  number_str := str_of_Z;
  str_repr s := "'" +:+ s +:+ "'"
}.

(** ** Well-formed documents

    The notions below are those of the XML 1.0 recommendation, not of
    app.py: the productions Char [2], S [3], Name [5], CharData [14],
    element [39], STag [40], ETag [42], content [43], EmptyElemTag [44] and
    EntityRef [68], for documents without prolog, attributes, comments,
    processing instructions, CDATA sections and character references.
    Characters are read bytewise, which decides Char on the ASCII range;
    bytes above 127 are the parts of multi-byte characters. *)

Fixpoint all_chars (p : ascii -> bool) (s : string) : bool :=
  match s with
  | EmptyString => true
  | String a rest => p a && all_chars p rest
  end.

Definition code (c : ascii) : nat := nat_of_ascii c.

Definition between (lo hi : nat) (c : ascii) : bool :=
  (Nat.leb lo (code c)) && (Nat.leb (code c) hi).

(** Char ::= #x9 | #xA | #xD | [#x20-...] *)
Definition xml_char (c : ascii) : bool :=
  Nat.eqb (code c) 9 || Nat.eqb (code c) 10 || Nat.eqb (code c) 13
  || Nat.leb 32 (code c).

(** S ::= (#x20 | #x9 | #xD | #xA)+, here possibly empty *)
Definition xml_space (c : ascii) : bool :=
  Nat.eqb (code c) 32 || Nat.eqb (code c) 9 || Nat.eqb (code c) 13
  || Nat.eqb (code c) 10.

Definition name_start_char (c : ascii) : bool :=
  Ascii.eqb c ":" || between 65 90 c || Ascii.eqb c "_" || between 97 122 c.

Definition name_char (c : ascii) : bool :=
  name_start_char c || Ascii.eqb c "-" || Ascii.eqb c "." || between 48 57 c.

Definition xml_name (s : string) : bool :=
  match s with
  | EmptyString => false
  | String a rest => name_start_char a && all_chars name_char rest
  end.

(** Whether the string contains the CDATA-section-close delimiter. *)
Fixpoint has_cdata_end (s : string) : bool :=
  match s with
  | EmptyString => false
  | String a rest =>
      (Ascii.eqb a "]" &&
       match rest with
       | String b (String c _) => Ascii.eqb b "]" && Ascii.eqb c ">"
       | _ => false
       end)
      || has_cdata_end rest
  end.

Definition char_data_char (c : ascii) : bool :=
  xml_char c && negb (Ascii.eqb c "<") && negb (Ascii.eqb c "&").

(** CharData: legal characters other than [<] and [&], not containing the
    CDATA-section-close delimiter. *)
Definition char_data (s : string) : bool :=
  all_chars char_data_char s && negb (has_cdata_end s).

(** The entities every document may refer to without declaring them. *)
Definition entity_name (s : string) : bool :=
  String.eqb s "amp" || String.eqb s "lt" || String.eqb s "gt"
  || String.eqb s "apos" || String.eqb s "quot".

Inductive xml_kind := an_element | a_content.

Inductive xml : xml_kind -> string -> Prop :=
| xml_empty_element name ws :
    xml_name name = true -> all_chars xml_space ws = true ->
    xml an_element ("<" +:+ name +:+ ws +:+ "/>")
| xml_element name ws1 ws2 body :
    xml_name name = true ->
    all_chars xml_space ws1 = true -> all_chars xml_space ws2 = true ->
    xml a_content body ->
    xml an_element
      ("<" +:+ name +:+ ws1 +:+ ">" +:+ body +:+ "</" +:+ name +:+ ws2 +:+ ">")
| xml_content_text s :
    char_data s = true -> xml a_content s
| xml_content_element s e rest :
    char_data s = true -> xml an_element e -> xml a_content rest ->
    xml a_content (s +:+ e +:+ rest)
| xml_content_reference s name rest :
    char_data s = true -> entity_name name = true -> xml a_content rest ->
    xml a_content (s +:+ "&" +:+ name +:+ ";" +:+ rest).

(** document ::= prolog element Misc*, with an empty prolog. *)
Definition xml_document (s : string) : Prop := xml an_element s.

(** Whether [needle] occurs in [s]. *)
Fixpoint contains (needle s : string) : bool :=
  String.prefix needle s ||
  match s with
  | EmptyString => false
  | String _ rest => contains needle rest
  end.


(** ** Shapes of the documents the codec produces *)

(** A childless element with the given text, as [tostring] writes it. *)
Definition leaf (t s : string) : string :=
  if String.eqb s "" then "<" +:+ t +:+ " />"
  else "<" +:+ t +:+ ">" +:+ escape s +:+ "</" +:+ t +:+ ">".

(** The [Message] element of a denied document: present exactly when the
    reason is a non-empty string. *)
Definition message_part {number} (error : json number) : string :=
  match error with
  | JStr m => if String.eqb m "" then "" else leaf "Message" m
  | _ => ""
  end.

Definition denied_document {number} (request_id : string) (error : json number) : string :=
  "<LocationRequest>" +:+ leaf "RequestID" request_id
  +:+ "<Status>denied</Status>" +:+ message_part error +:+ "</LocationRequest>".

Definition pending_document (request_id : string) : string :=
  "<LocationRequest>" +:+ leaf "RequestID" request_id
  +:+ "<Status>pending</Status>"
  +:+ "<Message>Location has not been provided by the user yet.</Message>"
  +:+ "</LocationRequest>".

Definition error_document (request_id : string) : string :=
  "<LocationRequest>" +:+ leaf "RequestID" request_id
  +:+ "<Status>error</Status></LocationRequest>".

Definition completed_document (request_id lat lon : string) : string :=
  "<LocationRequest>" +:+ leaf "RequestID" request_id
  +:+ "<Status>completed</Status>"
  +:+ "<Coordinates>" +:+ leaf "Latitude" lat +:+ leaf "Longitude" lon
  +:+ "</Coordinates></LocationRequest>".

(** ** Vocabulary of the statements *)

(** [data.get(k)] on a JSON object. *)
Definition field {number} (k : string) (fields : list (string * json number))
    : json number :=
  default JNull (assoc k fields).

(** Values Python can hash, hence look up in a dict. *)
Definition hashable {number} (v : json number) : bool :=
  match v with
  | JArr _ | JObj _ => false
  | _ => true
  end.

(** The entry of [REQUEST_DB] under a submitted token, if any. *)
Definition db_lookup {number} (st : state) (token : json number) : option entry :=
  match token with
  | JStr t => REQUEST_DB st !! t
  | _ => None
  end.

(** The moves of a status: none, or from pending to a final one. *)
Definition one_way (x x' : entry) : Prop :=
  x' = x \/
  (status x = "pending" /\ (status x' = "completed" \/ status x' = "denied")).

(** Texts and trees all of whose characters XML allows. *)
Definition text_ok {number} (txt : json number) : bool :=
  match txt with
  | JStr s => all_chars xml_char s
  | _ => true
  end.

Fixpoint tree_ok {number} (e : Element (number:=number)) : bool :=
  xml_name (tag e) && text_ok (text e) && forallb tree_ok (children e).

(** The arguments of the codec all of whose characters XML allows: the
    identifier, the status, the two coordinates as printed, the reason. *)
Definition codec_input_ok {number} `{PyBuiltins number} (request_id status : string)
    (location error_msg : json number) : bool :=
  all_chars xml_char request_id && all_chars xml_char status
  && match location with
     | JObj fields =>
         all_chars xml_char (py_str (field "lat" fields))
         && all_chars xml_char (py_str (field "lon" fields))
     | _ => true
     end
  && text_ok error_msg.

(** Characters that stand for themselves in character data and that
    [escape] leaves alone. *)
Definition plain_char (c : ascii) : bool :=
  xml_char c && negb (Ascii.eqb c "&") && negb (Ascii.eqb c "<")
  && negb (Ascii.eqb c ">").

(** What [escape] writes for one character. *)
Definition escape_char (a : ascii) : string :=
  if Ascii.eqb a "&" then "&amp;"
  else if Ascii.eqb a "<" then "&lt;"
  else if Ascii.eqb a ">" then "&gt;"
  else String a "".

(** A run of plain characters, then nothing or a reference followed by a
    content. *)
Definition plain_then_reference (s : string) : Prop :=
  exists p rest,
    s = p +:+ rest /\ all_chars plain_char p = true /\
    (rest = "" \/
     exists name rest',
       entity_name name = true /\ rest = "&" +:+ name +:+ ";" +:+ rest' /\
       xml a_content rest').

(** ** Concrete runs, on JSON integers *)

Definition sender : string := "+15550000000".

(** A started process with no request yet. *)
Definition st_empty : state := initial true sender.

(** A process in which the token [T] is pending and nothing is on disk. *)
Definition st_pending : state :=
  mkState true sender {["T" := mkEntry "pending"]} ∅.

Definition delivered : string -> string -> json Z -> delivery :=
  fun _ _ _ => Delivered "SM1".

Definition undeliverable : string -> string -> json Z -> delivery :=
  fun _ _ _ => Failed "Unable to create record".

Definition phone_body : list (string * json Z) :=
  [("phone_number", JStr "+15551234567")].

Definition share_body : list (string * json Z) :=
  [("token", JStr "T");
   ("location", JObj [("lat", JNum 37); ("lon", JNum (-122))]);
   ("error", JNull)].

Definition deny_body : list (string * json Z) :=
  [("token", JStr "T"); ("location", JNull); ("error", JStr "Permission denied.")].



Definition unknown_body : list (string * json Z) :=
  [("token", JStr "T2"); ("location", JNull); ("error", JStr "Permission denied.")].

Definition trace : list (request (number:=Z)) :=
  [ SubmitLocation (JObj share_body) Written;
    SubmitLocation (JObj deny_body) Written;
    RequestLocation (JObj phone_body) "http://host/" "U" delivered;
    GetConsent "T";
    GetLocationXml "T" ].

Definition st_after : state := default st_pending (run st_pending trace).

(** The character U+0001. *)
Definition control_character : string := String (ascii_of_nat 1) EmptyString.

(** ** Further vocabulary *)

(** A document with [RequestID] and [Status] and nothing else. *)
Definition bare_document (request_id s : string) : string :=
  "<LocationRequest>" +:+ leaf "RequestID" request_id +:+ leaf "Status" s
  +:+ "</LocationRequest>".

Definition is_object {number} (v : json number) : bool :=
  match v with JObj _ => true | _ => false end.

Definition is_string {number} (v : json number) : bool :=
  match v with JStr _ => true | _ => false end.

(** The routes that only read. *)
Definition reads_only {number} (r : request (number:=number)) : bool :=
  match r with
  | Index | GetConsent _ | GetLocationXml _ => true
  | _ => false
  end.


(** The statuses the service writes. *)
Definition known_status (s : string) : bool :=
  String.eqb s "pending" || String.eqb s "completed" || String.eqb s "denied".


Definition not_lt (c : ascii) : bool := negb (Ascii.eqb c "<").

(** Module initialisation (lines 13-37): the three variables are read from
    [os.environ], a missing one ends the process ([None]); [Client(...)]
    either gives a client or raises, which leaves [twilio_client = None];
    [REQUEST_DB] starts empty. The result directory is whatever is on disk. *)
Definition startup (environ : gmap string string) (client_created : bool)
    (files : gmap string fs_node) : option state :=
  match environ !! "TWILIO_ACCOUNT_SID", environ !! "TWILIO_AUTH_TOKEN",
        environ !! "TWILIO_PHONE_NUMBER" with
  | Some _, Some _, Some phone => Some (mkState client_created phone ∅ files)
  | _, _, _ => None
  end.

Definition environ_ok : gmap string string :=
  {[ "TWILIO_ACCOUNT_SID" := "AC0"; "TWILIO_AUTH_TOKEN" := "secret";
     "TWILIO_PHONE_NUMBER" := sender ]}.

(** A process whose client could not be created. *)
Definition st_clientless : state := mkState false sender ∅ ∅.

Definition no_phone_body : list (string * json Z) := [("phone_number", JStr "")].


Definition trace_from_start : list (request (number:=Z)) :=
  [ RequestLocation (JObj phone_body) "http://host/" "T" delivered;
    SubmitLocation (JObj share_body) Written;
    GetLocationXml "T" ].

Definition st_final : state := default st_empty (run st_empty trace_from_start).

(** ** Strings *)

Lemma append_assoc (a b c : string) : (a +:+ b) +:+ c = a +:+ (b +:+ c).
Proof. induction a as [|x a IH]; simpl; [reflexivity | now rewrite IH]. Qed.

Lemma append_nil_r (a : string) : a +:+ "" = a.
Proof. induction a as [|x a IH]; simpl; [reflexivity | now rewrite IH]. Qed.

(** Brings both sides of an equation between concatenations to the same
    right-nested form. *)
Ltac str_norm :=
  cbn; repeat (first [rewrite !append_assoc | rewrite !append_nil_r]; cbn).

Lemma all_chars_app p a b :
  all_chars p (a +:+ b) = all_chars p a && all_chars p b.
Proof.
  induction a as [|x a IH]; simpl; [reflexivity|].
  rewrite IH. apply andb_assoc.
Qed.

Lemma all_chars_impl (p q : ascii -> bool) s :
  (forall c, p c = true -> q c = true) ->
  all_chars p s = true -> all_chars q s = true.
Proof.
  intros Hpq. induction s as [|x s IH]; simpl; [reflexivity|].
  intros [Hx Hs]%andb_prop. rewrite (Hpq _ Hx), (IH Hs). reflexivity.
Qed.

Ltac by_cases_on_ascii c :=
  destruct c as [[] [] [] [] [] [] [] []]; vm_compute; congruence.

Lemma name_char_xml_char c : name_char c = true -> xml_char c = true.
Proof. by_cases_on_ascii c. Qed.

Lemma name_start_char_xml_char c : name_start_char c = true -> xml_char c = true.
Proof. by_cases_on_ascii c. Qed.

Lemma xml_space_xml_char c : xml_space c = true -> xml_char c = true.
Proof. by_cases_on_ascii c. Qed.

Lemma char_data_char_xml_char c : char_data_char c = true -> xml_char c = true.
Proof. by_cases_on_ascii c. Qed.

Lemma xml_name_chars s : xml_name s = true -> all_chars xml_char s = true.
Proof.
  destruct s as [|x s]; [discriminate|]. simpl.
  intros [Hx Hs]%andb_prop.
  rewrite (name_start_char_xml_char _ Hx). simpl.
  eapply all_chars_impl; [apply name_char_xml_char | exact Hs].
Qed.

Lemma entity_name_chars s : entity_name s = true -> all_chars xml_char s = true.
Proof.
  unfold entity_name. intros Hs.
  repeat (apply orb_prop in Hs; destruct Hs as [Hs|Hs]);
    apply String.eqb_eq in Hs; subst; reflexivity.
Qed.

(** Every character of an element or of a content is one XML allows. *)
Lemma xml_chars k s : xml k s -> all_chars xml_char s = true.
Proof.
  induction 1 as [name ws Hn Hw | name ws1 ws2 body Hn Hw1 Hw2 _ IH
                 | s Hs | s e rest Hs _ IHe _ IHr | s name rest Hs Hn _ IHr];
    rewrite ?all_chars_app; simpl;
    rewrite ?all_chars_app; simpl;
    repeat match goal with
           | Hx : xml_name _ = true |- _ =>
               apply xml_name_chars in Hx; rewrite Hx; clear Hx
           | Hx : all_chars xml_space _ = true |- _ =>
               apply (all_chars_impl _ xml_char _ xml_space_xml_char) in Hx;
               rewrite Hx; clear Hx
           | Hx : entity_name _ = true |- _ =>
               apply entity_name_chars in Hx; rewrite Hx; clear Hx
           | Hx : char_data _ = true |- _ =>
               apply andb_prop in Hx; destruct Hx as [Hx _];
               apply (all_chars_impl _ xml_char _ char_data_char_xml_char) in Hx;
               rewrite Hx; clear Hx
           | Hx : all_chars xml_char _ = true |- _ => rewrite Hx; clear Hx
           end; reflexivity.
Qed.

(** *** Escaping *)

Lemma replace_app c by_ a b :
  replace c by_ (a +:+ b) = replace c by_ a +:+ replace c by_ b.
Proof.
  induction a as [|x a IH]; simpl; [reflexivity|].
  destruct (Ascii.eqb x c); rewrite IH; [|reflexivity].
  symmetry. apply append_assoc.
Qed.

Lemma escape_cons a s : escape (String a s) = escape_char a +:+ escape s.
Proof.
  unfold escape, escape_char. simpl.
  destruct (Ascii.eqb_spec a "&") as [->|Hamp]; simpl.
  { rewrite ?replace_app. reflexivity. }
  destruct (Ascii.eqb_spec a "<") as [->|Hlt]; simpl.
  { rewrite ?replace_app. reflexivity. }
  destruct (Ascii.eqb_spec a ">") as [->|Hgt]; simpl; reflexivity.
Qed.

Lemma plain_char_char_data c : plain_char c = true -> char_data_char c = true.
Proof. by_cases_on_ascii c. Qed.

Lemma plain_char_not_gt c : plain_char c = true -> Ascii.eqb c ">" = false.
Proof. by_cases_on_ascii c. Qed.

Lemma plain_no_cdata_end s :
  all_chars plain_char s = true -> has_cdata_end s = false.
Proof.
  induction s as [|a s IH]; simpl; [reflexivity|].
  intros [Ha Hs]%andb_prop. rewrite (IH Hs), orb_false_r.
  destruct s as [|b [|c s]]; try apply andb_false_r.
  simpl in Hs. apply andb_prop in Hs as [_ [Hc _]%andb_prop].
  rewrite (plain_char_not_gt _ Hc), !andb_false_r. reflexivity.
Qed.

Lemma plain_char_data s : all_chars plain_char s = true -> char_data s = true.
Proof.
  intros Hs. unfold char_data. rewrite (plain_no_cdata_end _ Hs), andb_true_r.
  eapply all_chars_impl; [apply plain_char_char_data | exact Hs].
Qed.

Lemma plain_char_other c :
  xml_char c = true -> c <> "&"%char -> c <> "<"%char -> c <> ">"%char ->
  plain_char c = true.
Proof.
  intros Hc Ha Hl Hg. unfold plain_char. rewrite Hc.
  destruct (Ascii.eqb_spec c "&"); [contradiction|].
  destruct (Ascii.eqb_spec c "<"); [contradiction|].
  destruct (Ascii.eqb_spec c ">"); [contradiction|]. reflexivity.
Qed.

Lemma plain_then_reference_content s : plain_then_reference s -> xml a_content s.
Proof.
  intros (p & rest & -> & Hp & [-> | (name & rest' & Hn & -> & Hr)]).
  - rewrite append_nil_r. apply xml_content_text, plain_char_data, Hp.
  - apply xml_content_reference;
      [apply plain_char_data, Hp | exact Hn | exact Hr].
Qed.

Lemma escape_plain_then_reference s :
  all_chars xml_char s = true -> plain_then_reference (escape s).
Proof.
  induction s as [|a s IH]; simpl.
  - intros _. exists "", "". repeat split. left; reflexivity.
  - intros [Ha Hs]%andb_prop. specialize (IH Hs).
    rewrite escape_cons. unfold escape_char.
    destruct (Ascii.eqb_spec a "&") as [->|Hamp].
    { exists "", ("&amp;" +:+ escape s). repeat split. right.
      exists "amp", (escape s). repeat split.
      apply plain_then_reference_content, IH. }
    destruct (Ascii.eqb_spec a "<") as [->|Hlt].
    { exists "", ("&lt;" +:+ escape s). repeat split. right.
      exists "lt", (escape s). repeat split.
      apply plain_then_reference_content, IH. }
    destruct (Ascii.eqb_spec a ">") as [->|Hgt].
    { exists "", ("&gt;" +:+ escape s). repeat split. right.
      exists "gt", (escape s). repeat split.
      apply plain_then_reference_content, IH. }
    destruct IH as (p & rest & Heq & Hp & Hrest).
    exists (String a p), rest. split; [simpl; rewrite Heq; reflexivity|].
    split; [|exact Hrest].
    simpl. rewrite Hp, (plain_char_other a) by assumption. reflexivity.
Qed.

(** The text [escape] writes is a content, whatever markup characters the
    input has. *)
Lemma escape_content s : all_chars xml_char s = true -> xml a_content (escape s).
Proof. intros Hs. apply plain_then_reference_content, escape_plain_then_reference, Hs. Qed.

(** A content followed by an element and a content is a content. *)
Lemma content_then_element a e rest :
  xml a_content a -> xml an_element e -> xml a_content rest ->
  xml a_content (a +:+ e +:+ rest).
Proof.
  intros Ha He Hr. remember a_content as k eqn:Hk.
  induction Ha as [| | s Hs | s e' r' Hs He' _ Hr' IH | s name r' Hs Hn Hr' IH];
    try discriminate.
  - apply xml_content_element; assumption.
  - rewrite !append_assoc. apply xml_content_element; [assumption..|].
    apply IH; assumption.
  - rewrite !append_assoc. simpl. rewrite ?append_assoc.
    apply (xml_content_reference s name (r' +:+ e +:+ rest)); [assumption..|].
    apply IH; assumption.
Qed.

Section Properties.
Context {number : Type} `{PyBuiltins number}.

Local Abbreviation json := (json number).

(** *** The codec on each status *)

Lemma generate_pending request_id (location error_msg : json) :
  generate_xml_response request_id "pending" location error_msg
  = Ok (pending_document request_id).
Proof.
  unfold generate_xml_response, generate_xml_tree, pending_document, leaf.
  cbn. destruct (String.eqb request_id ""); cbn; str_norm; reflexivity.
Qed.

Lemma generate_error request_id (location error_msg : json) :
  generate_xml_response request_id "error" location error_msg
  = Ok (error_document request_id).
Proof.
  unfold generate_xml_response, generate_xml_tree, error_document, leaf.
  cbn. destruct (String.eqb request_id ""); cbn; str_norm; reflexivity.
Qed.

Lemma generate_denied request_id (location error_msg : json) :
  py_truthy error_msg = false \/ (exists m, error_msg = JStr m) ->
  generate_xml_response request_id "denied" location error_msg
  = Ok (denied_document request_id error_msg).
Proof.
  intros Herr.
  unfold generate_xml_response, generate_xml_tree, denied_document,
    message_part, leaf.
  destruct (py_truthy error_msg) eqn:Ht.
  - destruct Herr as [Hf | [m ->]]; [discriminate |].
    cbn in Ht. cbn. rewrite Ht. cbn.
    destruct (String.eqb m "") eqn:Hm; [discriminate |].
    destruct (String.eqb request_id ""); cbn; str_norm; reflexivity.
  - assert (match error_msg with
            | JStr m => if String.eqb m "" then "" else leaf "Message" m
            | _ => ""
            end = "") as Hmp.
    { destruct error_msg; cbn in *; try reflexivity.
      destruct (String.eqb s ""); [reflexivity | discriminate]. }
    unfold leaf in Hmp. rewrite Hmp. cbn.
    destruct (String.eqb request_id ""); cbn; str_norm; reflexivity.
Qed.

(** The coordinates of a completed document are [str(lat)] and [str(lon)],
    escaped. *)
Lemma generate_completed request_id (fields : list (string * json)) (error_msg : json) :
  fields <> [] ->
  generate_xml_response request_id "completed" (JObj fields) error_msg
  = Ok (completed_document request_id
          (py_str (field "lat" fields)) (py_str (field "lon" fields))).
Proof.
  intros Hne. destruct fields as [|kv fields]; [contradiction|].
  unfold generate_xml_response, generate_xml_tree, completed_document, leaf.
  cbn -[assoc]. fold (field "lat" (kv :: fields)) (field "lon" (kv :: fields)).
  destruct (String.eqb request_id "");
    destruct (String.eqb (py_str (field "lat" (kv :: fields))) "");
    destruct (String.eqb (py_str (field "lon" (kv :: fields))) "");
    cbn -[assoc field]; repeat (rewrite !append_assoc; cbn -[assoc field]);
    rewrite ?append_nil_r; reflexivity.
Qed.

(** *** Submissions *)

Lemma py_get_field (fields : list (string * json)) k :
  py_get (JObj fields) k = Ok (field k fields).
Proof. reflexivity. Qed.

Lemma finalize_ok st t (location error : json) w doc :
  (if py_truthy location
   then generate_xml_response t "completed" location JNull
   else generate_xml_response t "denied" JNull error) = Ok doc ->
  finalize st t location error w
  = (Ok received,
     set_disk (save (result_path t) doc w (disk st))
       (set_status t (if py_truthy location then "completed" else "denied") st)).
Proof.
  intros Hgen. unfold finalize.
  destruct (py_truthy location); rewrite Hgen; reflexivity.
Qed.

Lemma finalize_raise st t (location error : json) w e :
  (if py_truthy location
   then generate_xml_response t "completed" location JNull
   else generate_xml_response t "denied" JNull error) = Raise e ->
  finalize st t location error w = (Raise e, st).
Proof.
  intros Hgen. unfold finalize.
  destruct (py_truthy location); rewrite Hgen; reflexivity.
Qed.

(** A submission either leaves the state alone or finalizes one pending
    token. *)
Lemma submit_location_state st (data : json) w :
  snd (submit_location st data w) = st \/
  exists t e s doc,
    REQUEST_DB st !! t = Some e /\ status e = "pending" /\
    (s = "completed" \/ s = "denied") /\
    fst (submit_location st data w) = Ok received /\
    snd (submit_location st data w)
    = set_disk (save (result_path t) doc w (disk st)) (set_status t s st).
Proof.
  destruct data as [| | | |items|fields]; try (left; reflexivity).
  unfold submit_location. rewrite !py_get_field. cbn.
  destruct (py_truthy (field "token" fields)); [|left; reflexivity]. cbn.
  destruct (field "token" fields) as [| | |t| |]; try (left; reflexivity).
  destruct (REQUEST_DB st !! t) as [e|] eqn:Hdb; [|left; reflexivity].
  destruct (String.eqb_spec (status e) "pending") as [Hp|Hp]; cbn;
    [|left; reflexivity].
  destruct (if py_truthy (field "location" fields)
            then generate_xml_response t "completed" (field "location" fields) JNull
            else generate_xml_response t "denied" JNull (field "error" fields))
    as [doc|err] eqn:Hgen.
  - right. rewrite (finalize_ok _ _ _ _ _ _ Hgen). cbn.
    exists t, e, (if py_truthy (field "location" fields)
                  then "completed" else "denied"), doc.
    repeat split; try assumption.
    destruct (py_truthy (field "location" fields)); [left | right]; reflexivity.
  - left. rewrite (finalize_raise _ _ _ _ _ _ Hgen). reflexivity.
Qed.

Lemma submit_location_unfold st (fields : list (string * json)) w :
  submit_location st (JObj fields) w
  = if negb (py_truthy (field "token" fields)) then (Ok invalid_token, st)
    else match field "token" fields with
         | JArr _ | JObj _ => (Raise (TypeError "unhashable type"), st)
         | JStr t =>
             match REQUEST_DB st !! t with
             | None => (Ok invalid_token, st)
             | Some e =>
                 if negb (String.eqb (status e) "pending")
                 then (Ok already_processed, st)
                 else finalize st t (field "location" fields) (field "error" fields) w
             end
         | _ => (Ok invalid_token, st)
         end.
Proof. reflexivity. Qed.

Lemma submit_location_processed st (fields : list (string * json)) w t e :
  field "token" fields = JStr t -> t <> "" ->
  REQUEST_DB st !! t = Some e ->
  status e <> "pending" ->
  submit_location st (JObj fields) w = (Ok already_processed, st).
Proof.
  intros Htok Ht Hdb Hne. rewrite submit_location_unfold, Htok. cbn.
  destruct (String.eqb_spec t ""); [contradiction|]. cbn.
  rewrite Hdb. destruct (String.eqb_spec (status e) "pending"); [contradiction|].
  reflexivity.
Qed.

(** On the interface's types (a location that is an object or null, an
    error that is a string or null, a token that can be hashed) a
    submission is always answered. *)
Lemma submit_location_answered st (fields : list (string * json)) w :
  hashable (field "token" fields) = true ->
  well_typed_submission (field "location" fields) (field "error" fields) = true ->
  is_ok (fst (submit_location st (JObj fields) w)) = true.
Proof.
  intros Hh [Hloc Herr]%andb_prop. rewrite submit_location_unfold.
  destruct (py_truthy (field "token" fields)); [|reflexivity]. cbn.
  destruct (field "token" fields) as [| | |t| |]; try reflexivity; try discriminate.
  destruct (REQUEST_DB st !! t) as [e|]; [|reflexivity].
  destruct (negb (String.eqb (status e) "pending")); [reflexivity|].
  assert (py_truthy (field "error" fields) = false
          \/ (exists m, field "error" fields = JStr m)) as Herr'.
  { destruct (field "error" fields); try discriminate;
      [left; reflexivity | right; eexists; reflexivity]. }
  destruct (field "location" fields) as [| | | | |[|kv l]] eqn:Hl; try discriminate.
  - erewrite finalize_ok; [reflexivity|]. cbn. apply generate_denied, Herr'.
  - erewrite finalize_ok; [reflexivity|]. cbn. apply generate_denied, Herr'.
  - erewrite finalize_ok; [reflexivity|]. cbn -[generate_xml_response].
    apply generate_completed. discriminate.
Qed.

(** C6. A submission whose token is not a key of [REQUEST_DB] (the field is
    missing or null, or holds a value that is not a key) leaves the state
    as it was, so no file is created and no entry is modified; and it is
    answered with the 400 response "Invalid token", the token being a
    value Python can hash (anything but a list or an object). *)
Theorem submit_unknown_token_is_invalid st (fields : list (string * json)) w :
  db_lookup st (field "token" fields) = None ->
  snd (submit_location st (JObj fields) w) = st /\
  (hashable (field "token" fields) = true ->
   fst (submit_location st (JObj fields) w) = Ok invalid_token).
Proof.
  intros Hdb. rewrite submit_location_unfold.
  destruct (py_truthy (field "token" fields)); [|split; reflexivity]. cbn.
  destruct (field "token" fields); try (split; [reflexivity|]);
    try reflexivity; try discriminate.
  cbn in Hdb. rewrite Hdb. split; reflexivity.
Qed.

(** C3. Two submissions for the same token, with any location, error and
    write outcome each, the first of which is answered: the second leaves
    the whole state (the entries and the files) as the first left it, and
    when the token is a key it is answered "Request already processed". *)
Theorem submit_twice_is_idempotent st (f1 f2 : list (string * json)) w1 w2 :
  field "token" f2 = field "token" f1 ->
  is_ok (fst (submit_location st (JObj f1) w1)) = true ->
  let st1 := snd (submit_location st (JObj f1) w1) in
  snd (submit_location st1 (JObj f2) w2) = st1 /\
  (forall t, field "token" f1 = JStr t -> t <> "" ->
             is_Some (REQUEST_DB st1 !! t) ->
             fst (submit_location st1 (JObj f2) w2) = Ok already_processed).
Proof.
  intros Htok Hok st1. subst st1.
  rewrite (submit_location_unfold _ f2), Htok.
  rewrite (submit_location_unfold _ f1) in *.
  destruct (py_truthy (field "token" f1)) eqn:Htruthy; cbn in *.
  2:{ split; [reflexivity|]. intros t Ht Hne _. rewrite Ht in Htruthy.
      cbn in Htruthy. destruct (String.eqb_spec t ""); [contradiction|].
      cbn in Htruthy. discriminate. }
  destruct (field "token" f1) as [| | |t| |] eqn:Ht; cbn in *;
    try (split; [reflexivity | intros ? [=]]); try discriminate.
  destruct (REQUEST_DB st !! t) as [e|] eqn:Hdb; cbn.
  2:{ rewrite Hdb. split; [reflexivity|]. intros ? [= <-] _ Hs.
      rewrite Hdb in Hs. destruct Hs as [? Hs]. discriminate Hs. }
  destruct (String.eqb_spec (status e) "pending") as [Hp|Hp]; cbn in *.
  - destruct (if py_truthy (field "location" f1)
              then generate_xml_response t "completed" (field "location" f1) JNull
              else generate_xml_response t "denied" JNull (field "error" f1))
      as [doc|err] eqn:Hgen.
    + rewrite (finalize_ok _ _ _ _ _ _ Hgen) in *. cbn.
      rewrite lookup_insert_eq.
      assert (String.eqb
                (if py_truthy (field "location" f1) then "completed" else "denied")
                "pending" = false) as Hs
        by (destruct (py_truthy (field "location" f1)); reflexivity).
      cbn. rewrite Hs. cbn. split; [reflexivity|]. intros; reflexivity.
    + rewrite (finalize_raise _ _ _ _ _ _ Hgen) in Hok. discriminate.
  - rewrite Hdb. destruct (String.eqb_spec (status e) "pending"); [contradiction|].
    cbn. split; [reflexivity|]. intros; reflexivity.
Qed.

(** *** Requests for a location *)

Lemma request_location_unfold st (fields : list (string * json)) url_root uuid4 send :
  twilio_client st = true ->
  py_truthy (field "phone_number" fields) = true ->
  request_location st (JObj fields) url_root uuid4 send
  = match send (message_body_of (consent_url_of url_root uuid4))
            (TWILIO_PHONE_NUMBER st) (field "phone_number" fields) with
    | Delivered sid =>
        (Ok (Json (JObj
           [("status", JStr "pending");
            ("message", JStr ("Location request SMS sent to "
                              +:+ py_str (field "phone_number" fields) +:+ "."));
            ("request_id", JStr uuid4)]), 202),
         set_status uuid4 "pending" st)
    | Failed e =>
        (Ok (Json (JObj [("error", JStr ("Failed to send SMS: " +:+ e))]), 500),
         set_REQUEST_DB (delete uuid4 (REQUEST_DB st)) st)
    end.
Proof.
  intros Hc Hp. unfold request_location. rewrite Hc, py_get_field. cbn.
  fold (field "phone_number" fields). rewrite Hp. cbn.
  destruct (send _ _ _); [reflexivity|].
  rewrite lookup_insert_eq. unfold set_REQUEST_DB, set_status. cbn.
  rewrite delete_insert_eq. reflexivity.
Qed.

Lemma set_REQUEST_DB_id st : set_REQUEST_DB (REQUEST_DB st) st = st.
Proof. destruct st; reflexivity. Qed.

(** C5. When [messages.create] raises, the caller gets the 500 response
    carrying the error, the identifier drawn for the call is not a key of
    [REQUEST_DB] afterwards, and, the identifier having been unused before
    the call, the state is the one before the call. *)
Theorem request_location_rolls_back st (fields : list (string * json))
    url_root uuid4 send e :
  twilio_client st = true ->
  py_truthy (field "phone_number" fields) = true ->
  send (message_body_of (consent_url_of url_root uuid4))
       (TWILIO_PHONE_NUMBER st) (field "phone_number" fields) = Failed e ->
  let out := request_location st (JObj fields) url_root uuid4 send in
  fst out = Ok (Json (JObj [("error", JStr ("Failed to send SMS: " +:+ e))]), 500) /\
  REQUEST_DB (snd out) !! uuid4 = None /\
  (REQUEST_DB st !! uuid4 = None -> snd out = st).
Proof.
  intros Hc Hp Hsend out. subst out.
  rewrite (request_location_unfold _ _ _ _ _ Hc Hp), Hsend. cbn.
  split; [reflexivity|]. split.
  - apply lookup_delete_eq.
  - intros Hfresh. rewrite delete_id by assumption. apply set_REQUEST_DB_id.
Qed.

(** *** Statuses along a run *)

Lemma one_way_refl x : one_way x x.
Proof. left; reflexivity. Qed.

Lemma one_way_trans x y z : one_way x y -> one_way y z -> one_way x z.
Proof.
  intros [-> | [Hx Hy]] [-> | [Hy' Hz]]; try (left; reflexivity).
  - right; split; assumption.
  - right; split; assumption.
  - exfalso. destruct Hy as [Hy | Hy]; rewrite Hy in Hy'; discriminate.
Qed.

Lemma one_way_final x x' : one_way x x' -> status x <> "pending" -> x' = x.
Proof. intros [-> | [Hp _]] Hne; [reflexivity | contradiction]. Qed.

Lemma get_location_xml_state st request_id :
  snd (get_location_xml (number:=number) st request_id) = st.
Proof.
  unfold get_location_xml.
  destruct (disk st !! result_path request_id) as [[doc|why]|]; try reflexivity.
  rewrite generate_pending, generate_error.
  destruct (is_pending st request_id); reflexivity.
Qed.

Lemma get_consent_state st request_id :
  snd (get_consent (number:=number) st request_id) = st.
Proof.
  unfold get_consent. destruct (REQUEST_DB st !! request_id) as [e|]; [|reflexivity].
  destruct (negb (String.eqb (status e) "pending")); reflexivity.
Qed.

(** A request for a location leaves the state alone, or adds the drawn
    identifier as pending, or removes it. *)
Lemma request_location_state st (data : json) url_root uuid4 send :
  let st' := snd (request_location st data url_root uuid4 send) in
  st' = st \/ st' = set_status uuid4 "pending" st
  \/ st' = set_REQUEST_DB (delete uuid4 (REQUEST_DB st)) st.
Proof.
  cbn. unfold request_location.
  destruct (twilio_client st) eqn:Hc; cbn; [|left; reflexivity].
  destruct data as [| | | |items|fields]; try (left; reflexivity).
  cbn. fold (field "phone_number" fields).
  destruct (py_truthy (field "phone_number" fields)) eqn:Hp; cbn;
    [|left; reflexivity].
  destruct (send _ _ _); cbn.
  - right; left; reflexivity.
  - right; right. rewrite lookup_insert_eq. unfold set_REQUEST_DB, set_status. cbn.
    rewrite delete_insert_eq. reflexivity.
Qed.

(** One request, whatever it is and whatever the environment decides, moves
    every existing entry one way. *)
Lemma handle_one_way st r t x :
  fresh_uuid st r = true ->
  REQUEST_DB st !! t = Some x ->
  exists x', REQUEST_DB (snd (handle st r)) !! t = Some x' /\ one_way x x'.
Proof.
  intros Hfresh Hx.
  destruct r as [|data url_root uuid4 send|request_id|data w|request_id]; cbn.
  - exists x; split; [assumption | apply one_way_refl].
  - cbn in Hfresh. apply bool_decide_eq_true in Hfresh.
    assert (uuid4 <> t) as Hne by (intros ->; congruence).
    destruct (request_location_state st data url_root uuid4 send)
      as [-> | [-> | ->]]; cbn;
      exists x; (split; [|apply one_way_refl]).
    + assumption.
    + rewrite lookup_insert_ne by assumption. assumption.
    + rewrite lookup_delete_ne by assumption. assumption.
  - rewrite get_consent_state. exists x; split; [assumption | apply one_way_refl].
  - destruct (submit_location_state st data w)
      as [-> | (t' & e & s & doc & Hdb & Hp & Hs & _ & ->)].
    + exists x; split; [assumption | apply one_way_refl].
    + cbn. destruct (decide (t' = t)) as [->|Hne].
      * rewrite lookup_insert_eq. exists (mkEntry s). split; [reflexivity|].
        right. assert (e = x) as -> by congruence. split; [assumption|].
        exact Hs.
      * rewrite lookup_insert_ne by assumption.
        exists x; split; [assumption | apply one_way_refl].
  - rewrite get_location_xml_state.
    exists x; split; [assumption | apply one_way_refl].
Qed.

(** C7. Along every run of the service, from any state, an entry of
    [REQUEST_DB] stays a key and its status either is what it was or has
    gone from pending to completed or to denied; an entry whose status is
    not pending is never changed again. *)
Theorem status_moves_one_way st rs st' t x :
  run st rs = Some st' ->
  REQUEST_DB st !! t = Some x ->
  exists x', REQUEST_DB st' !! t = Some x' /\ one_way x x' /\
             (status x <> "pending" -> x' = x).
Proof.
  revert st x. induction rs as [|r rs IH]; intros st x Hrun Hx; cbn in Hrun.
  - injection Hrun as <-. exists x. split; [assumption|].
    split; [apply one_way_refl | reflexivity].
  - destruct (fresh_uuid st r) eqn:Hfresh; [|discriminate].
    destruct (handle_one_way st r t x Hfresh Hx) as (y & Hy & Hxy).
    destruct (IH _ y Hrun Hy) as (z & Hz & Hyz & _).
    exists z. split; [assumption|].
    pose proof (one_way_trans _ _ _ Hxy Hyz) as Hxz.
    split; [assumption | apply one_way_final; assumption].
Qed.

(** *** Reading a result *)



Lemma get_location_xml_not_found st request_id :
  disk st !! result_path request_id = None ->
  is_pending st request_id = false ->
  get_location_xml (number:=number) st request_id
  = (Ok (Xml (error_document request_id), 404), st).
Proof.
  intros Hd Hp. unfold get_location_xml.
  rewrite Hd, Hp, generate_error. reflexivity.
Qed.


(** *** Denials *)





(** *** Documents are well formed *)

Local Abbreviation Element := (Element (number:=number)).

Lemma Element_induction (P : Element -> Prop) :
  (forall t x cs, Forall P cs -> P (mkElement t x cs)) ->
  forall e, P e.
Proof.
  intros Hstep. fix IH 1. intros [t x cs]. apply Hstep.
  induction cs as [|c cs IHcs]; constructor; [apply IH | exact IHcs].
Qed.

Lemma _serialize_xml_unfold (e : Element) :
  _serialize_xml e
  = if py_truthy (text e) || negb (Nat.eqb (length (children e)) 0) then
      t <- (if py_truthy (text e) then _escape_cdata (text e) else Ok "") ;;
      cs <- for_each _serialize_xml (children e) ;;
      Ok ("<" +:+ tag e +:+ ">" +:+ t +:+ cs +:+ "</" +:+ tag e +:+ ">")
    else Ok ("<" +:+ tag e +:+ " />").
Proof. destruct e; reflexivity. Qed.

Lemma for_each_content (cs : list Element) body :
  Forall (fun e => forall s, tree_ok e = true -> _serialize_xml e = Ok s ->
                             xml an_element s) cs ->
  forallb tree_ok cs = true ->
  for_each _serialize_xml cs = Ok body ->
  (cs = [] /\ body = "") \/
  (exists e rest, body = e +:+ rest /\ xml an_element e /\ xml a_content rest).
Proof.
  intros Hall. revert body.
  induction Hall as [|c cs Hc _ IH]; intros body Hok Hser.
  - left. cbn in Hser. injection Hser as <-. split; reflexivity.
  - right. cbn in Hok. apply andb_prop in Hok as [Hokc Hokcs].
    cbn in Hser.
    destruct (_serialize_xml c) as [s|] eqn:Hs; [|discriminate].
    destruct (for_each _serialize_xml cs) as [r|] eqn:Hr; [|discriminate].
    cbn in Hser. injection Hser as <-.
    exists s, r. split; [reflexivity|]. split; [apply Hc; [assumption|reflexivity]|].
    destruct (IH r Hokcs eq_refl) as [[_ ->] | (e & rest & -> & He & Hrest)].
    + apply xml_content_text. reflexivity.
    + apply (xml_content_element "" e rest); [reflexivity | assumption..].
Qed.

(** Whatever [tostring] returns for a tree with XML names as tags and
    allowed characters in its texts is an element. *)
Lemma serialize_well_formed (e : Element) s :
  tree_ok e = true -> _serialize_xml e = Ok s -> xml an_element s.
Proof.
  revert s. induction e as [t x cs IH] using Element_induction.
  intros s Hok Hser. rewrite _serialize_xml_unfold in Hser. cbn in Hok, Hser.
  apply andb_prop in Hok as [[Hname Htext]%andb_prop Hcs].
  destruct (py_truthy x || negb (Nat.eqb (length cs) 0)) eqn:Hfull.
  - assert (exists txt, (if py_truthy x then _escape_cdata x else Ok "") = Ok txt
                        /\ xml a_content txt) as (txt & Htxt & Hcontent).
    { destruct (py_truthy x).
      - destruct x; try discriminate. cbn in Htext.
        eexists; split; [reflexivity | apply escape_content, Htext].
      - exists "". split; [reflexivity | apply xml_content_text; reflexivity]. }
    rewrite Htxt in Hser. cbn in Hser.
    destruct (for_each _serialize_xml cs) as [body|] eqn:Hbody; [|discriminate].
    cbn in Hser. injection Hser as <-.
    assert (xml a_content (txt +:+ body)) as Hinner.
    { destruct (for_each_content cs body IH Hcs Hbody)
        as [[_ ->] | (c & rest & -> & Hc & Hrest)].
      - rewrite append_nil_r. exact Hcontent.
      - apply content_then_element; assumption. }
    pose proof (xml_element t "" "" (txt +:+ body) Hname eq_refl eq_refl Hinner)
      as Hel.
    cbn in Hel. rewrite !append_assoc in Hel. cbn in Hel.
    rewrite ?append_assoc. cbn. exact Hel.
  - injection Hser as <-.
    pose proof (xml_empty_element t " " Hname eq_refl) as Hel. exact Hel.
Qed.

Lemma generate_xml_tree_ok request_id s (location error_msg : json) root :
  codec_input_ok request_id s location error_msg = true ->
  generate_xml_tree request_id s location error_msg = Ok root ->
  tree_ok root = true.
Proof.
  unfold codec_input_ok, generate_xml_tree.
  intros [[[Hid Hs]%andb_prop Hloc]%andb_prop Herr]%andb_prop Hgen.
  destruct (String.eqb s "completed" && py_truthy location).
  - destruct location as [| | | | |fields]; try discriminate.
    cbn in Hgen. injection Hgen as <-.
    apply andb_prop in Hloc as [Hlat Hlon].
    cbn. fold (field "lat" fields) (field "lon" fields).
    rewrite Hid, Hs, Hlat, Hlon. reflexivity.
  - destruct (String.eqb s "denied" && py_truthy error_msg);
      [|destruct (String.eqb s "pending")];
      injection Hgen as <-; cbn; rewrite Hid, Hs, ?Herr; reflexivity.
Qed.

(** C9 (as the code has it). The codec is a function of its four arguments
    alone, and it writes every text (the identifier, the status, the
    coordinates, the reason) through [escape]; hence, whichever of [&], [<],
    [>] the texts contain, the document it returns is a well-formed XML
    document as soon as the texts consist of characters XML allows. *)
Theorem generate_xml_response_well_formed request_id s (location error_msg : json) doc :
  codec_input_ok request_id s location error_msg = true ->
  generate_xml_response request_id s location error_msg = Ok doc ->
  xml_document doc.
Proof.
  intros Hin Hgen. unfold generate_xml_response in Hgen.
  destruct (generate_xml_tree request_id s location error_msg) as [root|] eqn:Hroot;
    [|discriminate].
  cbn in Hgen. unfold tostring in Hgen.
  eapply serialize_well_formed; [|exact Hgen].
  eapply generate_xml_tree_ok; eassumption.
Qed.

End Properties.

(** ** The statements at concrete requests *)

Example scenario_completed :
  let st1 := snd (request_location st_empty (JObj phone_body) "http://host/" "T" delivered) in
  let st2 := snd (submit_location st1 (JObj share_body) Written) in
  REQUEST_DB st1 !! "T" = Some (mkEntry "pending") /\
  fst (get_location_xml (number:=Z) st2 "T")
  = Ok (Xml "<LocationRequest><RequestID>T</RequestID><Status>completed</Status><Coordinates><Latitude>37</Latitude><Longitude>-122</Longitude></Coordinates></LocationRequest>", 200).
Proof. vm_compute. split; reflexivity. Qed.

(** Why [run] asks for an unused identifier: were [uuid4] to return a key in
    use, the request would set a completed entry back to pending. *)
Example colliding_uuid_resets_status :
  let st1 := snd (submit_location st_pending (JObj share_body) Written) in
  let st2 := snd (request_location st1 (JObj phone_body) "http://host/" "T" delivered) in
  REQUEST_DB st1 !! "T" = Some (mkEntry "completed") /\
  REQUEST_DB st2 !! "T" = Some (mkEntry "pending").
Proof. vm_compute. split; reflexivity. Qed.

(** A location that is truthy without being an object, or an error that is
    truthy without being a string, makes the handler raise before it has
    changed anything. *)
Example malformed_submission_raises :
  submit_location st_pending
    (JObj [("token", JStr "T"); ("location", JNum 5)]) Written
  = (Raise (AttributeError "get"), st_pending) /\
  submit_location st_pending
    (JObj [("token", JStr "T"); ("error", JNum 5)]) Written
  = (Raise (TypeError "cannot serialize"), st_pending).
Proof. vm_compute. split; reflexivity. Qed.

Lemma submit_unknown_token_is_invalid_witness :
  snd (submit_location st_pending (JObj unknown_body) Written) = st_pending /\
  fst (submit_location st_pending (JObj unknown_body) Written) = Ok invalid_token.
Proof.
  destruct (submit_unknown_token_is_invalid st_pending unknown_body Written eq_refl)
    as [Hstate Hanswer].
  split; [exact Hstate | apply Hanswer; reflexivity].
Defined.

Lemma submit_twice_is_idempotent_witness :
  let st1 := snd (submit_location st_pending (JObj share_body) Written) in
  snd (submit_location st1 (JObj deny_body) Written) = st1 /\
  (forall t, field "token" share_body = JStr t -> t <> "" ->
             is_Some (REQUEST_DB st1 !! t) ->
             fst (submit_location st1 (JObj deny_body) Written)
             = Ok already_processed).
Proof. apply submit_twice_is_idempotent; reflexivity. Defined.

Lemma request_location_rolls_back_witness :
  let out := request_location st_empty (JObj phone_body) "http://host/" "T"
               undeliverable in
  fst out = Ok (Json (JObj [("error",
                   JStr "Failed to send SMS: Unable to create record")]), 500) /\
  REQUEST_DB (snd out) !! "T" = None /\
  (REQUEST_DB st_empty !! "T" = None -> snd out = st_empty).
Proof.
  apply (request_location_rolls_back st_empty phone_body "http://host/" "T"
           undeliverable "Unable to create record"); reflexivity.
Defined.

Lemma status_moves_one_way_witness :
  run st_pending trace = Some st_after /\
  exists x', REQUEST_DB st_after !! "T" = Some x' /\
             one_way (mkEntry "pending") x' /\
             (status (mkEntry "pending") <> "pending" -> x' = mkEntry "pending").
Proof.
  split; [vm_compute; reflexivity|].
  apply (status_moves_one_way st_pending trace st_after "T" (mkEntry "pending"));
    vm_compute; reflexivity.
Defined.





(** C2. For a token that has neither a file nor an entry, the read endpoint
    answers 404 with a document whose status is error and that has no
    [Message] element: the text passed as [error_msg] is dropped, since
    the codec writes a message only for the statuses denied and pending. *)
Theorem get_location_xml_not_found_has_no_message :
  get_location_xml (number:=Z) st_empty "abc"
  = (Ok (Xml "<LocationRequest><RequestID>abc</RequestID><Status>error</Status></LocationRequest>", 404),
     st_empty) /\
  contains "<Message"
    "<LocationRequest><RequestID>abc</RequestID><Status>error</Status></LocationRequest>"
  = false.
Proof. split; vm_compute; reflexivity. Qed.

Lemma generate_xml_response_well_formed_witness :
  xml_document
    "<LocationRequest><RequestID>T</RequestID><Status>denied</Status><Message>a&lt;b &amp; c&gt;d</Message></LocationRequest>".
Proof.
  apply (generate_xml_response_well_formed (number:=Z) "T" "denied" JNull
           (JStr "a<b & c>d")); vm_compute; reflexivity.
Defined.

(** C9, as the specification states it, at a reason made of the control
    character U+0001: the codec writes it as it is, and no XML document
    contains it. *)
Lemma control_character_is_written_raw :
  let doc := "<LocationRequest><RequestID>T</RequestID><Status>denied</Status><Message>"
             +:+ control_character +:+ "</Message></LocationRequest>" in
  generate_xml_response (number:=Z) "T" "denied" JNull (JStr control_character)
  = Ok doc /\
  ~ xml_document doc.
Proof.
  split; [vm_compute; reflexivity|].
  intros Hwf. apply xml_chars in Hwf. vm_compute in Hwf. discriminate.
Qed.

(** * Further properties of the handlers *)

Section Coverage.
Context {number : Type} `{PyBuiltins number}.

Local Abbreviation json := (json number).

(** ** Requests for a location *)

(** X1. A request whose body has no usable phone number (the key is
    missing, or its value is null, empty, zero, false) is answered 400;
    nothing is recorded and [messages.create] is not consulted. *)
Theorem request_without_phone_number st (fields : list (string * json))
    url_root uuid4 send :
  twilio_client st = true ->
  py_truthy (field "phone_number" fields) = false ->
  request_location st (JObj fields) url_root uuid4 send
  = (Ok (Json (JObj [("error", JStr "'phone_number' is required")]), 400), st).
Proof.
  intros Hc Hp. unfold request_location. rewrite Hc, py_get_field. cbn.
  rewrite Hp. reflexivity.
Qed.

(** X2. A delivered request answers 202 with the drawn identifier, records
    it as pending and touches neither another entry nor the disk; the
    consent page of that identifier is then served. *)
Theorem request_location_creates_pending st (fields : list (string * json))
    url_root uuid4 send sid :
  twilio_client st = true ->
  py_truthy (field "phone_number" fields) = true ->
  send (message_body_of (consent_url_of url_root uuid4))
       (TWILIO_PHONE_NUMBER st) (field "phone_number" fields) = Delivered sid ->
  let out := request_location st (JObj fields) url_root uuid4 send in
  (exists message,
     fst out = Ok (Json (JObj [("status", JStr "pending"); ("message", JStr message);
                               ("request_id", JStr uuid4)]), 202)) /\
  REQUEST_DB (snd out) = <[uuid4 := mkEntry "pending"]> (REQUEST_DB st) /\
  disk (snd out) = disk st /\
  get_consent (number:=number) (snd out) uuid4
  = (Ok (ConsentPage uuid4, 200), snd out).
Proof.
  intros Hc Hp Hsend out. subst out.
  rewrite (request_location_unfold _ _ _ _ _ Hc Hp), Hsend. cbn.
  split; [eexists; reflexivity|]. split; [reflexivity|]. split; [reflexivity|].
  unfold get_consent. cbn. rewrite lookup_insert_eq. reflexivity.
Qed.

(** ** Submissions *)

(** A submission answered "received" has finalized its token. *)
Lemma submit_received_inv st (fields : list (string * json)) w t :
  field "token" fields = JStr t ->
  fst (submit_location st (JObj fields) w) = Ok received ->
  exists e doc,
    t <> "" /\ REQUEST_DB st !! t = Some e /\ status e = "pending" /\
    (if py_truthy (field "location" fields)
     then generate_xml_response t "completed" (field "location" fields) JNull
     else generate_xml_response t "denied" JNull (field "error" fields)) = Ok doc /\
    snd (submit_location st (JObj fields) w)
    = set_disk (save (result_path t) doc w (disk st))
        (set_status t (if py_truthy (field "location" fields)
                       then "completed" else "denied") st).
Proof.
  intros Htok. rewrite submit_location_unfold, Htok. cbn.
  destruct (String.eqb_spec t "") as [->|Hne]; cbn; [discriminate|].
  destruct (REQUEST_DB st !! t) as [e|] eqn:Hdb; [|discriminate].
  destruct (String.eqb_spec (status e) "pending") as [Hp|Hp]; cbn; [|discriminate].
  destruct (if py_truthy (field "location" fields)
            then generate_xml_response t "completed" (field "location" fields) JNull
            else generate_xml_response t "denied" JNull (field "error" fields))
    as [doc|err] eqn:Hgen.
  - rewrite (finalize_ok _ _ _ _ _ _ Hgen). cbn. intros _.
    exists e, doc. repeat split; assumption.
  - rewrite (finalize_raise _ _ _ _ _ _ Hgen). discriminate.
Qed.

Lemma final_status_not_pending (b : bool) :
  String.eqb (if b then "completed" else "denied") "pending" = false.
Proof. destruct b; reflexivity. Qed.

(** X3. Once a submission for a token has been answered "received", the
    consent page of that token is no longer served: the route answers 200
    with the notice that the request has been completed, for a denial as
    for a shared location. *)
Theorem consent_after_submission st (fields : list (string * json)) w t :
  field "token" fields = JStr t ->
  fst (submit_location st (JObj fields) w) = Ok received ->
  let st1 := snd (submit_location st (JObj fields) w) in
  get_consent (number:=number) st1 t
  = (Ok (Html "<h1>This location request has already been completed.</h1>", 200),
     st1).
Proof.
  intros Htok Hans st1.
  destruct (submit_received_inv _ _ _ _ Htok Hans) as (e & doc & _ & _ & _ & _ & Hst).
  subst st1. rewrite Hst. unfold get_consent. cbn.
  rewrite lookup_insert_eq. cbn. rewrite final_status_not_pending. reflexivity.
Qed.

(** X4. The routes that only read (the index, the consent page, the result)
    never raise and leave entries and files as they are, whatever the
    identifier and whatever is on disk. *)
Theorem reading_routes_change_nothing st (r : request (number:=number)) :
  reads_only r = true ->
  is_ok (fst (handle st r)) = true /\ snd (handle st r) = st.
Proof.
  destruct r as [|data url_root uuid4 send|request_id|data w|request_id];
    try discriminate; intros _; cbn.
  - split; reflexivity.
  - unfold get_consent. destruct (REQUEST_DB st !! request_id) as [e|];
      [destruct (negb (String.eqb (status e) "pending"))|]; split; reflexivity.
  - unfold get_location_xml.
    destruct (disk st !! result_path request_id) as [[doc|why]|];
      try (split; reflexivity).
    rewrite generate_pending, generate_error.
    destruct (is_pending st request_id); split; reflexivity.
Qed.


(** X6. When the write fails before the file is opened and the token had no
    file, the submission is still answered "received" and the result is
    lost for good: the result route answers 404 with the error document,
    and every later submission for the token is answered "Request already
    processed" without writing. *)
Theorem failed_write_loses_result st (fields : list (string * json)) t :
  field "token" fields = JStr t ->
  fst (submit_location st (JObj fields) FailedBeforeOpen) = Ok received ->
  disk st !! result_path t = None ->
  let st1 := snd (submit_location st (JObj fields) FailedBeforeOpen) in
  get_location_xml (number:=number) st1 t
  = (Ok (Xml (error_document t), 404), st1) /\
  (forall (fields' : list (string * json)) w',
     field "token" fields' = JStr t ->
     submit_location st1 (JObj fields') w' = (Ok already_processed, st1)).
Proof.
  intros Htok Hans Hfile st1.
  destruct (submit_received_inv _ _ _ _ Htok Hans)
    as (e & doc & Hne & _ & _ & _ & Hst).
  subst st1. rewrite Hst. split.
  - apply get_location_xml_not_found; [exact Hfile|].
    unfold is_pending. cbn. rewrite lookup_insert_eq. cbn.
    apply final_status_not_pending.
  - intros fields' w' Htok'.
    eapply submit_location_processed; [exact Htok' | exact Hne | |].
    + cbn. apply lookup_insert_eq.
    + cbn. destruct (py_truthy (field "location" fields)); discriminate.
Qed.


(** ** What a request can and cannot change *)




(** X10. A submission never adds a key to [REQUEST_DB] and never removes
    one: only a request for a location creates an entry. *)
Theorem submit_keeps_keys st (data : json) w :
  dom (REQUEST_DB (snd (submit_location st data w))) = dom (REQUEST_DB st).
Proof.
  destruct (submit_location_state st data w)
    as [-> | (t & e & s & doc & Hdb & _ & _ & _ & ->)]; [reflexivity|].
  cbn. rewrite dom_insert_L.
  assert (t ∈ dom (REQUEST_DB st)) as Hin by (apply elem_of_dom; eauto).
  apply set_eq. intros k. rewrite elem_of_union, elem_of_singleton.
  split; [intros [-> | Hk]; assumption | intros Hk; right; exact Hk].
Qed.

(** ** Invariants of a run *)

Lemma handle_known_statuses st (r : request (number:=number)) :
  (forall t e, REQUEST_DB st !! t = Some e -> known_status (status e) = true) ->
  forall t e, REQUEST_DB (snd (handle st r)) !! t = Some e ->
              known_status (status e) = true.
Proof.
  intros Hinv t e.
  destruct r as [|data url_root uuid4 send|request_id|data w|request_id]; cbn.
  - apply Hinv.
  - destruct (request_location_state st data url_root uuid4 send)
      as [-> | [-> | ->]]; cbn.
    + apply Hinv.
    + destruct (decide (uuid4 = t)) as [->|Hne].
      * rewrite lookup_insert_eq. intros [= <-]. reflexivity.
      * rewrite lookup_insert_ne by assumption. apply Hinv.
    + destruct (decide (uuid4 = t)) as [->|Hne].
      * rewrite lookup_delete_eq. discriminate.
      * rewrite lookup_delete_ne by assumption. apply Hinv.
  - rewrite get_consent_state. apply Hinv.
  - destruct (submit_location_state st data w)
      as [-> | (t' & e' & s & doc & _ & _ & Hs & _ & ->)]; [apply Hinv|].
    cbn. destruct (decide (t' = t)) as [->|Hne].
    + rewrite lookup_insert_eq. intros [= <-]. cbn.
      destruct Hs as [-> | ->]; reflexivity.
    + rewrite lookup_insert_ne by assumption. apply Hinv.
  - rewrite get_location_xml_state. apply Hinv.
Qed.

(** X11. In a process that started with an empty [REQUEST_DB], whatever
    requests it has served, every status is pending, completed or denied. *)
Theorem statuses_of_a_run st (rs : list (request (number:=number))) st' t e :
  REQUEST_DB st = ∅ ->
  run st rs = Some st' ->
  REQUEST_DB st' !! t = Some e ->
  known_status (status e) = true.
Proof.
  intros Hempty Hrun.
  assert (forall t e, REQUEST_DB st !! t = Some e -> known_status (status e) = true)
    as Hinv by (intros ? ?; rewrite Hempty, lookup_empty; discriminate).
  clear Hempty. revert t e.
  revert st Hinv Hrun. induction rs as [|r rs IH]; intros st Hinv Hrun; cbn in Hrun.
  - injection Hrun as <-. exact Hinv.
  - destruct (fresh_uuid st r); [|discriminate].
    apply (IH (snd (handle st r))); [|exact Hrun].
    apply handle_known_statuses, Hinv.
Qed.



Lemma handle_without_client st (r : request (number:=number)) :
  twilio_client st = false -> REQUEST_DB st = ∅ -> snd (handle st r) = st.
Proof.
  intros Hc Hdb.
  destruct r as [|data url_root uuid4 send|request_id|data w|request_id]; cbn.
  - reflexivity.
  - unfold request_location. rewrite Hc. reflexivity.
  - apply get_consent_state.
  - destruct (submit_location_state st data w)
      as [Hst | (t & e & s & doc & Hk & _)]; [exact Hst|].
    rewrite Hdb, lookup_empty in Hk. discriminate.
  - apply get_location_xml_state.
Qed.

(** X13. A process whose Twilio client could not be created never records
    or stores anything: after any sequence of requests its state is the one
    it started with, and a request for a location is answered 500 whatever
    its body. *)
Theorem without_client_nothing_happens environ files st
    (rs : list (request (number:=number))) st' :
  startup environ false files = Some st ->
  run st rs = Some st' ->
  st' = st /\
  (forall (data : json) url_root uuid4 send,
     request_location st' data url_root uuid4 send
     = (Ok (Json (JObj [("error",
              JStr "Twilio client not initialized. Check credentials.")]), 500),
        st')).
Proof.
  intros Hstart Hrun.
  assert (twilio_client st = false /\ REQUEST_DB st = ∅) as [Hc Hdb].
  { unfold startup in Hstart.
    destruct (environ !! "TWILIO_ACCOUNT_SID"); [|discriminate].
    destruct (environ !! "TWILIO_AUTH_TOKEN"); [|discriminate].
    destruct (environ !! "TWILIO_PHONE_NUMBER"); [|discriminate].
    injection Hstart as <-. split; reflexivity. }
  assert (st' = st) as ->.
  { clear Hstart. revert Hrun. induction rs as [|r rs IH]; cbn.
    - intros [= <-]. reflexivity.
    - destruct (fresh_uuid st r); [|discriminate].
      rewrite (handle_without_client st r Hc Hdb). exact IH. }
  split; [reflexivity|].
  intros data url_root uuid4 send. unfold request_location. rewrite Hc. reflexivity.
Qed.

(** ** The codec on all its arguments *)

Lemma generate_bare request_id s (location error_msg : json) :
  String.eqb s "completed" && py_truthy location = false ->
  String.eqb s "denied" && py_truthy error_msg = false ->
  String.eqb s "pending" = false ->
  generate_xml_response request_id s location error_msg
  = Ok (bare_document request_id s).
Proof.
  intros Hc Hd Hp.
  unfold generate_xml_response, generate_xml_tree, bare_document, leaf.
  rewrite Hc, Hd, Hp. cbn.
  destruct (String.eqb request_id ""); destruct (String.eqb s "");
    cbn; str_norm; reflexivity.
Qed.

Lemma truthy_object_not_empty (fields : list (string * json)) :
  py_truthy (JObj fields) = true -> fields <> [].
Proof. destruct fields; [discriminate | discriminate]. Qed.

(** X14. The codec raises in two cases and in no other: the status is
    completed and the location is truthy without being an object (it has
    no [get]), or the status is denied and the reason is truthy without
    being a string (it cannot be serialised). *)
Theorem codec_raises_exactly_when request_id s (location error_msg : json) :
  is_ok (generate_xml_response request_id s location error_msg)
  = negb ((String.eqb s "completed" && py_truthy location
             && negb (is_object location))
          || (String.eqb s "denied" && py_truthy error_msg
                && negb (is_string error_msg))).
Proof.
  destruct (String.eqb_spec s "completed") as [->|Hc].
  { cbn [andb orb]. change (String.eqb "completed" "denied") with false.
    cbn [andb orb]. rewrite orb_false_r.
    destruct (py_truthy location) eqn:Ht; cbn [andb negb].
    - destruct location as [| | | |[|x items]|fields]; try discriminate;
        cbn in Ht;
        try (unfold generate_xml_response, generate_xml_tree; cbn;
             rewrite ?Ht; reflexivity).
      rewrite generate_completed by (apply truthy_object_not_empty, Ht).
      reflexivity.
    - rewrite generate_bare; [reflexivity | cbn; exact Ht | reflexivity | reflexivity]. }
  destruct (String.eqb_spec s "denied") as [->|Hd].
  { cbn [andb orb].
    destruct (py_truthy error_msg) eqn:Ht; cbn [andb negb].
    - destruct error_msg as [| | |m|[|x items]|[|x fields]]; try discriminate;
        cbn in Ht;
        try (unfold generate_xml_response, generate_xml_tree; cbn;
             rewrite ?Ht; cbn; rewrite ?Ht;
             destruct (String.eqb request_id ""); cbn; rewrite ?Ht; reflexivity).
    - rewrite generate_denied by (left; exact Ht). reflexivity. }
  cbn [andb orb negb].
  destruct (String.eqb_spec s "pending") as [->|Hp].
  - rewrite generate_pending. reflexivity.
  - rewrite generate_bare; [reflexivity | | | ].
    + destruct (String.eqb_spec s "completed"); [contradiction | reflexivity].
    + destruct (String.eqb_spec s "denied"); [contradiction | reflexivity].
    + destruct (String.eqb_spec s "pending"); [contradiction | reflexivity].
Qed.

(** X15. Arguments the status does not ask for are dropped: unless the
    status is completed with a truthy location, denied with a truthy
    reason, or pending, the document has [RequestID] and [Status] and
    nothing else, whatever location and reason were passed. *)
Theorem unused_arguments_are_dropped request_id s (location error_msg : json) :
  (s = "completed" -> py_truthy location = false) ->
  (s = "denied" -> py_truthy error_msg = false) ->
  s <> "pending" ->
  generate_xml_response request_id s location error_msg
  = Ok (bare_document request_id s).
Proof.
  intros Hc Hd Hp. apply generate_bare.
  - destruct (String.eqb_spec s "completed") as [Heq|]; [|reflexivity].
    cbn. apply Hc, Heq.
  - destruct (String.eqb_spec s "denied") as [Heq|]; [|reflexivity].
    cbn. apply Hd, Heq.
  - destruct (String.eqb_spec s "pending"); [contradiction | reflexivity].
Qed.

(** X16. A location object that lacks a coordinate is still a completed
    location: the missing key reads as [None] and the document carries the
    text "None" for it. *)
Theorem missing_coordinate_is_written_as_None request_id
    (fields : list (string * json)) (error_msg : json) :
  fields <> [] ->
  assoc "lat" fields = None ->
  generate_xml_response request_id "completed" (JObj fields) error_msg
  = Ok (completed_document request_id "None" (py_str (field "lon" fields))).
Proof.
  intros Hne Hlat. rewrite generate_completed by assumption.
  unfold field at 1. rewrite Hlat. reflexivity.
Qed.

(** ** Documents can be read back *)

Lemma append_inv_head (a x y : string) : a +:+ x = a +:+ y -> x = y.
Proof.
  induction a as [|c a IH]; simpl; [trivial|]. intros [= Heq]. apply IH, Heq.
Qed.

Lemma length_append (a b : string) :
  String.length (a +:+ b) = (String.length a + String.length b)%nat.
Proof. induction a as [|c a IH]; simpl; [reflexivity | now rewrite IH]. Qed.

Lemma append_inv_tail (a b c : string) : a +:+ c = b +:+ c -> a = b.
Proof.
  revert b. induction a as [|x a IH]; intros [|y b] Heq; simpl in Heq.
  - reflexivity.
  - apply (f_equal String.length) in Heq. simpl in Heq.
    rewrite length_append in Heq. lia.
  - apply (f_equal String.length) in Heq. simpl in Heq.
    rewrite length_append in Heq. lia.
  - injection Heq as -> Heq. f_equal. apply IH, Heq.
Qed.

(** Two texts without [<], each followed by [<], are told apart by it. *)
Lemma split_at_lt (a b x y : string) :
  all_chars not_lt a = true -> all_chars not_lt b = true ->
  a +:+ String "<" x = b +:+ String "<" y -> a = b /\ x = y.
Proof.
  revert b. induction a as [|c a IH]; intros [|d b] Ha Hb Heq; simpl in *.
  - injection Heq as ->. split; reflexivity.
  - injection Heq as <- _. discriminate.
  - injection Heq as -> _. discriminate.
  - apply andb_prop in Ha as [_ Ha]. apply andb_prop in Hb as [_ Hb].
    injection Heq as -> Heq. destruct (IH b Ha Hb Heq) as [-> ->].
    split; reflexivity.
Qed.

Lemma escape_char_not_lt a : all_chars not_lt (escape_char a) = true.
Proof.
  unfold escape_char.
  destruct (Ascii.eqb_spec a "&"); [reflexivity|].
  destruct (Ascii.eqb_spec a "<") as [|Hlt]; [reflexivity|].
  destruct (Ascii.eqb_spec a ">"); [reflexivity|].
  simpl. unfold not_lt. destruct (Ascii.eqb_spec a "<"); [contradiction|reflexivity].
Qed.

Lemma escape_not_lt s : all_chars not_lt (escape s) = true.
Proof.
  induction s as [|a s IH]; [reflexivity|].
  rewrite escape_cons, all_chars_app, escape_char_not_lt, IH. reflexivity.
Qed.

(** Escaping loses nothing: different texts are written differently. *)
Lemma escape_inj s1 s2 : escape s1 = escape s2 -> s1 = s2.
Proof.
  revert s2. induction s1 as [|a s1 IH]; intros [|b s2].
  - reflexivity.
  - rewrite escape_cons. unfold escape_char.
    destruct (Ascii.eqb b "&"); [discriminate|].
    destruct (Ascii.eqb b "<"); [discriminate|].
    destruct (Ascii.eqb b ">"); discriminate.
  - rewrite escape_cons. unfold escape_char.
    destruct (Ascii.eqb a "&"); [discriminate|].
    destruct (Ascii.eqb a "<"); [discriminate|].
    destruct (Ascii.eqb a ">"); discriminate.
  - rewrite !escape_cons. unfold escape_char.
    destruct (Ascii.eqb_spec a "&") as [->|Ha1];
      [|destruct (Ascii.eqb_spec a "<") as [->|Ha2];
        [|destruct (Ascii.eqb_spec a ">") as [->|Ha3]]];
    (destruct (Ascii.eqb_spec b "&") as [->|Hb1];
      [|destruct (Ascii.eqb_spec b "<") as [->|Hb2];
        [|destruct (Ascii.eqb_spec b ">") as [->|Hb3]]]);
    simpl; intros Heq; try discriminate;
    try (injection Heq as Heq; f_equal; apply IH, Heq);
    try (injection Heq as Hab _; congruence).
    injection Heq as -> Heq. f_equal. apply IH, Heq.
Qed.

(** A childless element followed by anything determines its text and what
    follows. *)
Lemma leaf_inj t x y r r' :
  leaf t x +:+ r = leaf t y +:+ r' -> x = y /\ r = r'.
Proof.
  unfold leaf.
  destruct (String.eqb_spec x "") as [->|Hx];
    destruct (String.eqb_spec y "") as [->|Hy];
    rewrite !append_assoc; simpl; intros [= Heq];
    apply append_inv_head in Heq; simpl in Heq.
  - injection Heq as ->. split; reflexivity.
  - discriminate.
  - discriminate.
  - injection Heq as Heq. rewrite ?append_assoc in Heq. simpl in Heq.
    apply split_at_lt in Heq as [Hxy Heq]; try apply escape_not_lt.
    apply escape_inj in Hxy. injection Heq as Heq.
    apply append_inv_head in Heq. injection Heq as ->. split; assumption || reflexivity.
Qed.

(** X17. A completed document determines what it was made from: two
    completed documents that are equal have the same identifier and the
    same two coordinate texts [str(lat)] and [str(lon)]; nothing of them
    is lost or merged by the escaping. *)
Theorem completed_document_determines_texts request_id1 request_id2
    (fields1 fields2 : list (string * json)) (e1 e2 : json) doc :
  fields1 <> [] -> fields2 <> [] ->
  generate_xml_response request_id1 "completed" (JObj fields1) e1 = Ok doc ->
  generate_xml_response request_id2 "completed" (JObj fields2) e2 = Ok doc ->
  request_id1 = request_id2 /\
  py_str (field "lat" fields1) = py_str (field "lat" fields2) /\
  py_str (field "lon" fields1) = py_str (field "lon" fields2).
Proof.
  intros H1 H2. rewrite !generate_completed by assumption.
  intros [= <-] [= Heq].
  apply leaf_inj in Heq as [-> Heq].
  apply (append_inv_head "<Status>completed</Status><Coordinates>") in Heq.
  apply leaf_inj in Heq as [Hlat Heq].
  apply leaf_inj in Heq as [Hlon _].
  repeat split; congruence.
Qed.

(** X18. A denied document determines the token and the reason: two
    submitted reasons that are strings give the same document only when
    they are the same reason, for the same token. *)
Theorem denied_document_determines_reason request_id1 request_id2 m1 m2
    (l1 l2 : json) doc :
  generate_xml_response request_id1 "denied" l1 (JStr m1) = Ok doc ->
  generate_xml_response request_id2 "denied" l2 (JStr m2) = Ok doc ->
  request_id1 = request_id2 /\ m1 = m2.
Proof.
  rewrite !generate_denied by (right; eexists; reflexivity).
  intros [= <-] [= Heq].
  apply leaf_inj in Heq as [-> Heq].
  apply (append_inv_head "<Status>denied</Status>") in Heq.
  split; [reflexivity|]. unfold message_part in Heq.
  destruct (String.eqb_spec m1 "") as [->|Hm1];
    destruct (String.eqb_spec m2 "") as [->|Hm2]; simpl in Heq.
  - reflexivity.
  - unfold leaf in Heq. destruct (String.eqb m2 ""); discriminate.
  - unfold leaf in Heq. destruct (String.eqb m1 ""); discriminate.
  - apply leaf_inj in Heq as [Hm _]. congruence.
Qed.

(** ** Paths and links *)

Lemma startswith_slash_append t x :
  t <> "" -> startswith_slash (t +:+ x) = startswith_slash t.
Proof. destruct t; [contradiction | reflexivity]. Qed.

Lemma result_path_relative t :
  startswith_slash t = false ->
  result_path t = RESULTS_DIR +:+ "/" +:+ t +:+ ".xml".
Proof.
  intros Ht. unfold result_path, os_path_join.
  assert (startswith_slash (t +:+ ".xml") = false) as ->.
  { destruct t; [reflexivity|]. rewrite startswith_slash_append by discriminate.
    exact Ht. }
  reflexivity.
Qed.

(** X19. Tokens that do not begin with a slash, as every uuid, have result
    files of their own: different tokens never share a path, so a
    submission cannot overwrite the result of another token. *)
Theorem result_paths_are_distinct t1 t2 :
  startswith_slash t1 = false -> startswith_slash t2 = false ->
  result_path t1 = result_path t2 -> t1 = t2.
Proof.
  intros H1 H2. rewrite !result_path_relative by assumption. intros Heq.
  apply (append_inv_head RESULTS_DIR) in Heq.
  apply (append_inv_head "/") in Heq.
  apply append_inv_tail in Heq. exact Heq.
Qed.

Lemma rstrip_slash s : rstrip "/" (s +:+ "/") = rstrip "/" s.
Proof.
  induction s as [|a s IH]; [reflexivity|].
  simpl. rewrite IH. reflexivity.
Qed.

Lemma rstrip_not_endswith s : endswith_slash (rstrip "/" s) = false.
Proof.
  induction s as [|a s IH]; [reflexivity|]. simpl.
  destruct (rstrip "/" s) as [|b r] eqn:Hr.
  - destruct (Ascii.eqb a "/") eqn:Ha; [reflexivity|]. simpl. exact Ha.
  - exact IH.
Qed.

(** X20. The consent link has exactly the slash of [/consent/] after the
    base: a trailing slash of the root URL is stripped, so the root with
    and without it give the same link. *)
Theorem consent_url_ignores_trailing_slash url_root request_id :
  consent_url_of (url_root +:+ "/") request_id = consent_url_of url_root request_id /\
  exists base_url,
    consent_url_of url_root request_id = base_url +:+ "/consent/" +:+ request_id /\
    endswith_slash base_url = false.
Proof.
  unfold consent_url_of. rewrite rstrip_slash. split; [reflexivity|].
  exists (rstrip "/" url_root). split; [reflexivity | apply rstrip_not_endswith].
Qed.

(** ** The answers of a submission *)


(** ** From the request to the result *)


End Coverage.

(** ** The further properties at concrete requests *)

Lemma request_without_phone_number_witness :
  request_location st_empty (JObj no_phone_body) "http://host/" "T" delivered
  = (Ok (Json (JObj [("error", JStr "'phone_number' is required")]), 400), st_empty).
Proof. apply request_without_phone_number; reflexivity. Defined.

Lemma request_location_creates_pending_witness :
  let out := request_location st_empty (JObj phone_body) "http://host/" "T" delivered in
  (exists message,
     fst out = Ok (Json (JObj [("status", JStr "pending"); ("message", JStr message);
                               ("request_id", JStr "T")]), 202)) /\
  REQUEST_DB (snd out) = <["T" := mkEntry "pending"]> (REQUEST_DB st_empty) /\
  disk (snd out) = disk st_empty /\
  get_consent (number:=Z) (snd out) "T" = (Ok (ConsentPage "T", 200), snd out).
Proof.
  apply (request_location_creates_pending st_empty phone_body "http://host/" "T"
           delivered "SM1"); reflexivity.
Defined.

Lemma consent_after_submission_witness :
  let st1 := snd (submit_location st_pending (JObj deny_body) Written) in
  get_consent (number:=Z) st1 "T"
  = (Ok (Html "<h1>This location request has already been completed.</h1>", 200),
     st1).
Proof. apply (consent_after_submission st_pending deny_body Written "T"); reflexivity. Defined.

Lemma reading_routes_change_nothing_witness :
  is_ok (fst (handle (number:=Z) st_pending (GetLocationXml "T"))) = true /\
  snd (handle (number:=Z) st_pending (GetLocationXml "T")) = st_pending.
Proof. apply reading_routes_change_nothing; reflexivity. Defined.


Lemma failed_write_loses_result_witness :
  let st1 := snd (submit_location st_pending (JObj share_body) FailedBeforeOpen) in
  get_location_xml (number:=Z) st1 "T" = (Ok (Xml (error_document "T"), 404), st1) /\
  (forall (fields' : list (string * json Z)) w',
     field "token" fields' = JStr "T" ->
     submit_location st1 (JObj fields') w' = (Ok already_processed, st1)).
Proof. apply (failed_write_loses_result st_pending share_body "T"); reflexivity. Defined.




Lemma statuses_of_a_run_witness :
  known_status (status (mkEntry "completed")) = true.
Proof.
  apply (statuses_of_a_run (number:=Z) st_empty trace_from_start st_final "T"
           (mkEntry "completed")); vm_compute; reflexivity.
Defined.


Lemma without_client_nothing_happens_witness :
  st_clientless = st_clientless /\
  (forall (data : json Z) url_root uuid4 send,
     request_location st_clientless data url_root uuid4 send
     = (Ok (Json (JObj [("error",
              JStr "Twilio client not initialized. Check credentials.")]), 500),
        st_clientless)).
Proof.
  apply (without_client_nothing_happens (number:=Z) environ_ok ∅ st_clientless
           trace_from_start st_clientless); vm_compute; reflexivity.
Defined.

Lemma unused_arguments_are_dropped_witness :
  generate_xml_response (number:=Z) "T" "completed" (JObj []) (JStr "Permission denied.")
  = Ok (bare_document "T" "completed").
Proof.
  apply unused_arguments_are_dropped;
    [intros _; reflexivity | discriminate | discriminate].
Defined.

Lemma missing_coordinate_is_written_as_None_witness :
  generate_xml_response (number:=Z) "T" "completed" (JObj [("lon", JNum 5)]) JNull
  = Ok (completed_document "T" "None" (py_str (field "lon" [("lon", JNum 5)]))).
Proof.
  apply (missing_coordinate_is_written_as_None (number:=Z) "T" [("lon", JNum 5)] JNull);
    [discriminate | reflexivity].
Defined.

Lemma completed_document_determines_texts_witness :
  "T" = "T" /\
  py_str (field "lat" [("lat", JNum 37); ("lon", JNum (-122))])
  = py_str (field (number:=Z) "lat" [("lon", JStr "-122"); ("lat", JStr "37")]) /\
  py_str (field "lon" [("lat", JNum 37); ("lon", JNum (-122))])
  = py_str (field (number:=Z) "lon" [("lon", JStr "-122"); ("lat", JStr "37")]).
Proof.
  apply (completed_document_determines_texts (number:=Z) "T" "T"
           [("lat", JNum 37); ("lon", JNum (-122))]
           [("lon", JStr "-122"); ("lat", JStr "37")] JNull JNull
           (completed_document "T" "37" "-122"));
    try discriminate; vm_compute; reflexivity.
Defined.

Lemma denied_document_determines_reason_witness :
  "T" = "T" /\ "Permission denied." = "Permission denied.".
Proof.
  apply (denied_document_determines_reason (number:=Z) "T" "T"
           "Permission denied." "Permission denied." JNull (JObj [])
           (denied_document (number:=Z) "T" (JStr "Permission denied.")));
    vm_compute; reflexivity.
Defined.

Lemma result_paths_are_distinct_witness : "T" = "T".
Proof. apply result_paths_are_distinct; reflexivity. Defined.


